(** * chat-post: the chat request handler of the serverless RAG sample

    A shallow embedding of [packages/api/src/functions/chat-post.ts]: the
    handler [postChat] and the stream transcoder [createJsonStream].

    JavaScript strings are kept as Rocq strings holding the UTF-8 bytes of
    well-formed text.  The external collaborators (the embedding model, the
    chat model, the vector store, the chain library) are reached through a
    record of oracles; every call the handler makes is recorded in a trace,
    so that statements such as "no backend call is attempted" are statements
    about that trace. *)

From Stdlib Require Import String Ascii List Bool Arith ZArith QArith Lia.
Import ListNotations.
Local Close Scope Q_scope.
Local Open Scope list_scope.
Local Open Scope string_scope.

Set Implicit Arguments.

(** ** Characters and strings *)

Definition dquote : ascii := "034"%char.
Definition backslash : ascii := "092"%char.
Definition newline : ascii := "010"%char.

Definition str (c : ascii) : string := String c EmptyString.

(** The string ['\n'] of the source. *)
Definition nl : string := str newline.

Definition is_empty (s : string) : bool :=
  match s with
  | EmptyString => true
  | String _ _ => false
  end.

Fixpoint occurrences (c : ascii) (s : string) : nat :=
  match s with
  | EmptyString => 0
  | String a rest => (if Ascii.eqb a c then 1 else 0) + occurrences c rest
  end.

Fixpoint ends_with (c : ascii) (s : string) : bool :=
  match s with
  | EmptyString => false
  | String a EmptyString => Ascii.eqb a c
  | String _ rest => ends_with c rest
  end.

(** ** JSON.stringify on the response chunk

    [JSON.stringify] quotes a string by the QuoteJSONString operation of
    ECMA-262: the two-character escapes for backspace, tab, line feed, form
    feed, carriage return, the double quote and the backslash, a six-character
    [\u00xx] escape (lowercase hexadecimal) for every other code below 0x20,
    and every other character unchanged. *)

Definition hex_digit (n : nat) : ascii :=
  match n with
  | 0 => "0" | 1 => "1" | 2 => "2" | 3 => "3" | 4 => "4" | 5 => "5"
  | 6 => "6" | 7 => "7" | 8 => "8" | 9 => "9" | 10 => "a" | 11 => "b"
  | 12 => "c" | 13 => "d" | 14 => "e" | _ => "f"
  end%char.

Definition unicode_escape (n : nat) : string :=
  String backslash
    (String "u" (String "0" (String "0"
       (String (hex_digit (n / 16)) (str (hex_digit (n mod 16))))))).

Definition escape2 (c : ascii) : string := String backslash (str c).

Definition quote_char (c : ascii) : string :=
  let n := nat_of_ascii c in
  match n with
  | 8 => escape2 "b"
  | 9 => escape2 "t"
  | 10 => escape2 "n"
  | 12 => escape2 "f"
  | 13 => escape2 "r"
  | 34 => escape2 dquote
  | 92 => escape2 backslash
  | _ => if Nat.ltb n 32 then unicode_escape n else str c
  end.

Fixpoint quote_chars (s : string) : string :=
  match s with
  | EmptyString => EmptyString
  | String c rest => quote_char c ++ quote_chars rest
  end.

Definition JSON_quote (s : string) : string :=
  String dquote (quote_chars s ++ str dquote).

(** [AIChatCompletionDelta] of the chat protocol, with the two fields the
    transcoder fills in. *)
Record ChatMessageDelta := { content : string; role : string }.
Record AIChatCompletionDelta := { delta : ChatMessageDelta }.

(** [JSON.stringify] of an object writes its own properties in insertion
    order, without white space. *)
Definition JSON_stringify (c : AIChatCompletionDelta) : string :=
  "{" ++ JSON_quote "delta" ++ ":" ++
    "{" ++ JSON_quote "content" ++ ":" ++ JSON_quote (content (delta c)) ++ "," ++
           JSON_quote "role" ++ ":" ++ JSON_quote (role (delta c)) ++ "}" ++
  "}".

(** ** Exceptions and asynchronous iterables *)

(** An [Error] object, of which only the message is read: what the engine
    and the body parser throw. *)
Record Error := { message : string }.

(** The end of an evaluation: a value, or a thrown value of type [E]. *)
Inductive outcome (E A : Type) : Type :=
| Ok (a : A)
| Throw (e : E).
Arguments Ok {E A} a.
Arguments Throw {E A} e.

(** Evaluations in which only [Error] objects are thrown. *)
Definition result (A : Type) : Type := outcome Error A.

(** A value thrown by a collaborator.  The parameter of the handler's [catch]
    block is [unknown] and its cast to [Error] is erased at run time: the
    block evaluates [`${error.message}`] on whatever was thrown.  A thrown
    value is described by how that evaluation ends: with a text (the message
    of an [Error] object; the text [undefined] for a value without message),
    or by throwing in turn, as it does on [null] and [undefined]. *)
Inductive thrown : Type :=
| with_message (e : Error)
| message_throws (x : thrown).

Coercion with_message : Error >-> thrown.

Definition as_thrown {A : Type} (r : result A) : outcome thrown A :=
  match r with
  | Ok a => Ok a
  | Throw e => Throw (with_message e)
  end.

(** What a consumer of an [AsyncIterable] observes: the values yielded, in
    order, until the iterable either completes or throws. *)
Inductive AsyncIterable (A : Type) : Type :=
| Done
| Yield (a : A) (rest : AsyncIterable A)
| Raise (e : Error).
Arguments Done {A}.
Arguments Yield {A} a rest.
Arguments Raise {A} e.

Fixpoint from_list {A : Type} (l : list A) : AsyncIterable A :=
  match l with
  | [] => Done
  | a :: rest => Yield a (from_list rest)
  end.

Fixpoint yielded {A : Type} (s : AsyncIterable A) : list A :=
  match s with
  | Done => []
  | Yield a rest => a :: yielded rest
  | Raise _ => []
  end.

Fixpoint raised {A : Type} (s : AsyncIterable A) : option Error :=
  match s with
  | Done => None
  | Yield _ rest => raised rest
  | Raise e => Some e
  end.

(** ** createJsonStream (chat-post.ts:148-163) *)

Definition responseChunk (chunk : string) : AIChatCompletionDelta :=
  {| delta := {| content := chunk; role := "assistant" |} |}.

Fixpoint createJsonStream (chunks : AsyncIterable string) : AsyncIterable string :=
  match chunks with
  | Done => Done
  | Raise e => Raise e
  | Yield chunk rest =>
      if is_empty chunk then createJsonStream rest
      else Yield (JSON_stringify (responseChunk chunk) ++ nl) (createJsonStream rest)
  end.

(** The line the spec gives for one fragment. *)
Definition delta_line (fragment : string) : string :=
  JSON_stringify {| delta := {| content := fragment; role := "assistant" |} |} ++ nl.

Definition non_empty (s : string) : bool := negb (is_empty s).

(** ** The system prompt (chat-post.ts:18-77)

    The template literal of the source, line breaks included; its only
    template variable is [{context}], in the last line. *)

Definition systemPrompt : string :=
  "
Assistant helps potential migrants with questions related to migration projects, opportunities and constraints in destination countries. 
Be brief in your answers. Answer only plain text, DO NOT use Markdown.

You are an AI assistant whose primary goal is to be warm, friendly, and highly empathetic. You should always respond with kindness, patience, and a helpful attitude, making sure the person you are talking to feels understood and supported. Use simple, plain language that 
anyone can easily understand, avoiding technical jargon or overly formal terms. Tailor your responses to match the emotional tone of the person, offering encouragement where appropriate, and ensuring that your advice or information is clear and accessible. Focus on building 
a positive connection, showing empathy, and always striving to make the conversation feel like talking to a trusted friend.

Answer ONLY with information from the sources below. If there isn't enough information in the sources, say you don't know. Do not generate answers that don't use the sources. If asking a clarifying question to the user would help, ask the question.
If the user question is not in English, answer in the language used in the question.
If the user is asking a question about which country he or she should migrate to, please answer by asking age, gender, nationality, education level and languages spoken.
If the user is giving characteristics such as age, gender, nationality, education level or languages spoken, please answer by recommending a country to migrate to between these 4 choices: France, England, United States, or Germany, based on all characteristics provided. 
Ponderate higher the influence of geographical distance and languages spoken. Tell the user that possibilities of successful integration in this country are the most likely. Don't add any citations.

Each source has the format " ++ str dquote ++
  "[filename]: information" ++ str dquote ++
  ". ALWAYS reference the source filename for every part used in the answer. Use the format " ++ str dquote ++
  "[filename]" ++ str dquote ++
  " to reference a source, for example: [info1.txt]. List each source separately, for example: [info1.txt][info2.pdf].

Generate 3 very brief follow-up questions that the user would likely ask next.
Enclose the follow-up questions in double angle brackets. Example:

After a question related to Visa Requirements:
<<How long does the visa application process take?>>
<<What documents are required for the visa application?>>
<<Are there any specific visa categories for skilled workers or students?>>
<<What are the chances of my visa application being approved?>>

After a question related to Job Opportunities:
<<What are the most in-demand jobs in France?>>
<<What is the average salary for my profession in France?>>
<<Are there any job search websites or agencies you recommend?>>
<<What is the work culture like in France?>>

After a question related to Cost of Living:
<<How much should I budget for monthly expenses?>>
<<What are the average rental prices in major cities?>>
<<How do transportation costs compare to my current country?>>
<<Are there any hidden costs I should be aware of?>>

After a question related to Housing:
<<What are the best neighborhoods for expats in France?>>
<<How can I find short-term accommodation while I search for a permanent place?>>
<<What are the typical lease terms and conditions?>>
<<Are there any housing scams I should watch out for?>>

After a question related to Cultural Differences:
<<What are the common social norms and etiquette?>>
<<How can I learn the local language quickly?>>
<<Are there any communities from my country or support groups?>>
<<What are the major holidays and traditions?>>

After a question related to General Moving Advice:
<<What are the pros and cons of moving to France?>>
<<How can I prepare for the move (e.g., packing, shipping belongings)?>>
<<What should I do in the first few weeks after arriving?>>
<<Are there any legal or financial considerations I should be aware of?>>

Do no repeat questions that have already been asked.
Make sure the last question ends with " ++ str dquote ++
  ">>" ++ str dquote ++
  ".

SOURCES:
{context}".

(** ** JavaScript values

    [request.json()] yields whatever JSON the caller sent: the cast to
    [AIChatCompletionRequest] is erased at run time, so the handler's tests
    run on arbitrary values. *)

(** A JavaScript number is an IEEE 754 double; the handler only asks whether
    one is zero or NaN. *)
Inductive number : Type :=
| NaN
| Infinity (negative : bool)
| Zero (negative : bool)
| Finite (negative : bool) (mantissa : positive) (exponent : Z).

#[warnings="-register-all"]
Inductive jsvalue : Type :=
| VUndefined
| VNull
| VBoolean (b : bool)
| VNumber (n : number)
| VString (s : string)
| VArray (elements : list jsvalue)
| VObject (properties : list (string * jsvalue)).

(** ToBoolean. *)
Definition truthy (v : jsvalue) : bool :=
  match v with
  | VUndefined | VNull => false
  | VBoolean b => b
  | VNumber NaN | VNumber (Zero _) => false
  | VNumber _ => true
  | VString s => negb (is_empty s)
  | VArray _ | VObject _ => true
  end.

(** [v === 0]. *)
Definition strict_equals_0 (v : jsvalue) : bool :=
  match v with
  | VNumber (Zero _) => true
  | _ => false
  end.

(** The own property [k] of an object built by [JSON.parse]: of two members
    with the same name the later one wins; a missing property reads as
    [undefined]. *)
Definition own_property (k : string) (properties : list (string * jsvalue)) : jsvalue :=
  match find (fun p => String.eqb (fst p) k) (rev properties) with
  | Some p => snd p
  | None => VUndefined
  end.

(** The engine's TypeErrors (message texts as V8 words them). *)
Definition TypeError (text : string) : Error := {| message := text |}.

Definition cannot_destructure (what : string) : Error :=
  TypeError ("Cannot destructure property 'messages' of 'requestBody' as it is " ++ what ++ ".").
Definition cannot_read (what property : string) : Error :=
  TypeError ("Cannot read properties of " ++ what ++ " (reading '" ++ property ++ "')").
Definition not_a_function : Error := TypeError "messages.at is not a function".

(** The values [null] and [undefined], when thrown: reading their [message]
    throws a TypeError. *)
Definition thrown_null : thrown := message_throws (cannot_read "null" "message").
Definition thrown_undefined : thrown := message_throws (cannot_read "undefined" "message").

(** [const { messages } = requestBody]: destructuring [null] or [undefined]
    throws; numbers, booleans, strings and arrays have no [messages]
    property. *)
Definition destructure_messages (requestBody : jsvalue) : result jsvalue :=
  match requestBody with
  | VUndefined => Throw (cannot_destructure "undefined")
  | VNull => Throw (cannot_destructure "null")
  | VObject properties => Ok (own_property "messages" properties)
  | _ => Ok VUndefined
  end.

(** [messages.length === 0]. *)
Definition length_is_0 (messages : jsvalue) : result bool :=
  match messages with
  | VUndefined => Throw (cannot_read "undefined" "length")
  | VNull => Throw (cannot_read "null" "length")
  | VArray elements => Ok (match elements with [] => true | _ => false end)
  | VString s => Ok (is_empty s)
  | VObject properties => Ok (strict_equals_0 (own_property "length" properties))
  | VBoolean _ | VNumber _ => Ok false
  end.

(** What [messages.at(-1)] evaluates to: a value, or, on a non-empty string,
    its last code unit (a one-character string, of which only the absence of
    properties matters here). *)
Inductive at_result : Type :=
| at_value (v : jsvalue)
| at_code_unit.

(** [messages.at(-1)]: the last element of an array, [undefined] when it is
    empty; the last code unit of a string; no other JSON value has a callable
    [at]. *)
Definition at_minus_1 (messages : jsvalue) : result at_result :=
  match messages with
  | VArray elements => Ok (at_value (last elements VUndefined))
  | VString s => Ok (if is_empty s then at_value VUndefined else at_code_unit)
  | VUndefined => Throw (cannot_read "undefined" "at")
  | VNull => Throw (cannot_read "null" "at")
  | VBoolean _ | VNumber _ | VObject _ => Throw not_a_function
  end.

(** [x.content] for [x] neither [null] nor [undefined]: only an object can
    have the property. *)
Definition content_of (x : at_result) : jsvalue :=
  match x with
  | at_value (VObject properties) => own_property "content" properties
  | _ => VUndefined
  end.

(** [x?.content]. *)
Definition optional_content (x : at_result) : jsvalue :=
  match x with
  | at_value VUndefined | at_value VNull => VUndefined
  | _ => content_of x
  end.

(** [x!.content]: the non-null assertion is erased at run time. *)
Definition asserted_content (x : at_result) : result jsvalue :=
  match x with
  | at_value VUndefined => Throw (cannot_read "undefined" "content")
  | at_value VNull => Throw (cannot_read "null" "content")
  | _ => Ok (content_of x)
  end.

(** ** The handler's effects: a trace of calls, and exceptions *)

Section Handler.

(** [../security.js] is not part of the sources: the values its two functions
    return are kept abstract. *)
Variables Credentials TokenProvider : Type.

(** [../constants.js] is not part of the sources either. *)
Variables ollamaChatModel ollamaEmbeddingsModel faissStoreFolder : string.

(** Backend objects are identified by the constructor called and its
    arguments. *)
Inductive Embeddings : Type :=
| AzureOpenAIEmbeddings (azureADTokenProvider : TokenProvider)
| OllamaEmbeddings (model : string).

Inductive BaseChatModel : Type :=
| AzureChatOpenAI (temperature : Q) (azureADTokenProvider : TokenProvider)
| ChatOllama (temperature : Q) (model : string).

Inductive VectorStore : Type :=
| AzureCosmosDBNoSQLVectorStore (embeddings : Embeddings) (credentials : Credentials)
| FaissStore (directory : string) (embeddings : Embeddings).

(** A retrieved document, with the two variables the document template
    names. *)
Record Document := { source : string; page_content : string }.

(** The argument of [createStuffDocumentsChain]. *)
Record StuffDocumentsChain := {
  llm : BaseChatModel;
  prompt : list (string * string);
  documentPrompt : string
}.

(** [store.asRetriever(k)]. *)
Record Retriever := { vectorStore : VectorStore; k : nat }.

Inductive event : Type :=
| request_json
| getCredentials
| getAzureOpenAiTokenProvider
| new_Embeddings (e : Embeddings)
| new_ChatModel (m : BaseChatModel)
| new_VectorStore (s : VectorStore)
| createStuffDocumentsChain (c : StuffDocumentsChain)
| retriever_invoke (r : Retriever) (query : jsvalue)
| ragChain_stream (c : StuffDocumentsChain) (input : jsvalue) (context : list Document)
| context_log (text : string)
| context_error (text : string).

(** What the collaborators answer during one request (each is called at most
    once per request).  A constructor either succeeds, giving the object, or
    throws; retrieval and generation answer with a value or throw.  What they
    throw is any value. *)
Record Collaborators := {
  (* getCredentials() *)
  credentials_of : outcome thrown Credentials;
  (* getAzureOpenAiTokenProvider() *)
  token_provider_of : outcome thrown TokenProvider;
  (* new AzureOpenAIEmbeddings(..), new OllamaEmbeddings(..) *)
  embeddings_fail : Embeddings -> option thrown;
  (* new AzureChatOpenAI(..), new ChatOllama(..) *)
  model_fail : BaseChatModel -> option thrown;
  (* new AzureCosmosDBNoSQLVectorStore(..), await FaissStore.load(..) *)
  store_fail : VectorStore -> option thrown;
  (* await createStuffDocumentsChain(..) *)
  chain_fail : StuffDocumentsChain -> option thrown;
  (* await store.asRetriever(k).invoke(query) *)
  similarity_search : VectorStore -> jsvalue -> nat -> outcome thrown (list Document);
  (* await ragChain.stream({ input, context }) *)
  generate :
    StuffDocumentsChain -> jsvalue -> list Document -> outcome thrown (AsyncIterable string)
}.

(** [await request.json()]: the parsed body, or the parser's error. *)
Record HttpRequest := { json : result jsvalue }.

Record ProcessEnv := { AZURE_OPENAI_API_ENDPOINT : option string }.

(** Modelled from the spec: [../http-response.js] is not part of the sources.
    Each of its three helpers is represented by the outcome the spec names,
    carrying the arguments the handler passes: [BadRequest] with a plain-text
    explanation, [ServiceUnavailable] with a message, and the success response
    with its body stream and headers. *)
Inductive HttpResponseInit : Type :=
| badRequest (text : string)
| serviceUnavailable (text : string)
| data (body : AsyncIterable string) (headers : list (string * string)).

(** A computation records the calls it makes, in order, and ends with a
    value or a thrown value. *)
Definition M (A : Type) : Type := (list event * outcome thrown A)%type.

Definition ret {A : Type} (a : A) : M A := ([], Ok a).

Definition bind {A B : Type} (m : M A) (f : A -> M B) : M B :=
  match m with
  | (t, Ok a) => let (t', r) := f a in ((t ++ t')%list, r)
  | (t, Throw e) => (t, Throw e)
  end.

(** An evaluation by the engine, which makes no call. *)
Definition lift {A : Type} (r : result A) : M A := ([], as_thrown r).

Definition throw {A : Type} (x : thrown) : M A := ([], Throw x).

Definition emit (ev : event) : M unit := ([ev], Ok tt).

(** A call to a collaborator: the call is recorded, then its outcome is
    returned or thrown. *)
Definition call {A : Type} (ev : event) (answer : outcome thrown A) : M A := ([ev], answer).

Definition construct {A : Type} (ev : event) (failure : option thrown) (object : A) : M A :=
  call ev (match failure with None => Ok object | Some e => Throw e end).

Definition try_catch {A : Type} (body : M A) (handler : thrown -> M A) : M A :=
  match body with
  | (t, Ok a) => (t, Ok a)
  | (t, Throw e) => let (t', r) := handler e in ((t ++ t')%list, r)
  end.

Notation "x <- m ;; f" := (bind m (fun x => f))
  (at level 61, m at next level, right associativity).
Notation "m ;;; f" := (bind m (fun _ => f))
  (at level 61, right associativity).

(** ** postChat (chat-post.ts:79-145) *)

Definition temperature_literal : Q := 0.7%Q.

(** [if (azureOpenAiEndpoint)]: an unset variable is [undefined]; the empty
    string is falsy as well. *)
Definition endpoint_set (env : ProcessEnv) : bool :=
  match AZURE_OPENAI_API_ENDPOINT env with
  | None => false
  | Some s => negb (is_empty s)
  end.

(** [!messages || messages.length === 0 || !messages.at(-1)?.content], with
    the short-circuit evaluation of [||]. *)
Definition invalid_messages (messages : jsvalue) : result bool :=
  if negb (truthy messages) then Ok true
  else
    match length_is_0 messages with
    | Throw e => Throw e
    | Ok true => Ok true
    | Ok false =>
        match at_minus_1 messages with
        | Throw e => Throw e
        | Ok x => Ok (negb (truthy (optional_content x)))
        end
    end.

(** [messages.at(-1)!.content]. *)
Definition last_content (messages : jsvalue) : result jsvalue :=
  match at_minus_1 messages with
  | Throw e => Throw e
  | Ok x => asserted_content x
  end.

Definition Backend : Type := (Embeddings * BaseChatModel * VectorStore)%type.

(** The branch taken when the endpoint is set (chat-post.ts:95-105). *)
Definition azure_backend (w : Collaborators) : M Backend :=
  credentials <- call getCredentials (credentials_of w) ;;
  azureADTokenProvider <- call getAzureOpenAiTokenProvider (token_provider_of w) ;;
  let e := AzureOpenAIEmbeddings azureADTokenProvider in
  embeddings <- construct (new_Embeddings e) (embeddings_fail w e) e ;;
  let m := AzureChatOpenAI temperature_literal azureADTokenProvider in
  model <- construct (new_ChatModel m) (model_fail w m) m ;;
  let s := AzureCosmosDBNoSQLVectorStore embeddings credentials in
  store <- construct (new_VectorStore s) (store_fail w s) s ;;
  ret (embeddings, model, store).

Definition fallback_notice : string :=
  "No Azure OpenAI endpoint set, using Ollama models and local DB".

(** The branch taken otherwise (chat-post.ts:107-114). *)
Definition local_backend (w : Collaborators) : M Backend :=
  emit (context_log fallback_notice) ;;;
  let e := OllamaEmbeddings ollamaEmbeddingsModel in
  embeddings <- construct (new_Embeddings e) (embeddings_fail w e) e ;;
  let m := ChatOllama temperature_literal ollamaChatModel in
  model <- construct (new_ChatModel m) (model_fail w m) m ;;
  let s := FaissStore faissStoreFolder embeddings in
  store <- construct (new_VectorStore s) (store_fail w s) s ;;
  ret (embeddings, model, store).

(** The [if] on the endpoint (chat-post.ts:94-115). *)
Definition select_backend (env : ProcessEnv) (w : Collaborators) : M Backend :=
  if endpoint_set env then azure_backend w else local_backend w.

Definition chat_prompt : list (string * string) :=
  [("system", systemPrompt); ("human", "{input}")].

Definition document_template : string := "[{source}]: {page_content}" ++ nl.

Definition stream_headers : list (string * string) :=
  [("Content-Type", "application/x-ndjson"); ("Transfer-Encoding", "chunked")].

Definition invalid_text : string := "Invalid or missing messages in the request body".
Definition unavailable_text : string :=
  "Service temporarily unavailable. Please try again later.".
Definition error_prefix : string := "Error when processing chat-post request: ".

(** What follows a successful validation (chat-post.ts:90-138).
    [ChatPromptTemplate.fromMessages], [PromptTemplate.fromTemplate],
    [store.asRetriever] and [Readable.from] only wrap their arguments. *)
Definition generate_answer (env : ProcessEnv) (w : Collaborators) (messages : jsvalue)
  : M HttpResponseInit :=
  backend <- select_backend env w ;;
  let '(embeddings, model, store) := backend in
  let c := {| llm := model; prompt := chat_prompt; documentPrompt := document_template |} in
  ragChain <- construct (createStuffDocumentsChain c) (chain_fail w c) c ;;
  let retriever := {| vectorStore := store; k := 3 |} in
  question <- lift (last_content messages) ;;
  context <- call (retriever_invoke retriever question)
                  (similarity_search w (vectorStore retriever) question (k retriever)) ;;
  responseStream <- call (ragChain_stream ragChain question context)
                         (generate w ragChain question context) ;;
  let jsonStream := createJsonStream responseStream in
  ret (data jsonStream stream_headers).

(** The body of the [try] block. *)
Definition postChat_try (env : ProcessEnv) (w : Collaborators) (request : HttpRequest)
  : M HttpResponseInit :=
  requestBody <- call request_json (as_thrown (json request)) ;;
  messages <- lift (destructure_messages requestBody) ;;
  invalid <- lift (invalid_messages messages) ;;
  if invalid then ret (badRequest invalid_text)
  else generate_answer env w messages.

(** The [catch] block.  The argument of [context.error] is evaluated first:
    when reading the message of the caught value throws, nothing is logged
    and the block, and with it the handler, throws. *)
Definition postChat_catch (error : thrown) : M HttpResponseInit :=
  match error with
  | with_message e =>
      emit (context_error (error_prefix ++ message e)) ;;;
      ret (serviceUnavailable unavailable_text)
  | message_throws x => throw x
  end.

Definition postChat (env : ProcessEnv) (w : Collaborators) (request : HttpRequest)
  : M HttpResponseInit :=
  try_catch (postChat_try env w request) postChat_catch.

(** ** Observations on a trace *)

Definition is_construction (ev : event) : bool :=
  match ev with
  | new_Embeddings _ | new_ChatModel _ | new_VectorStore _ => true
  | _ => false
  end.

Definition is_local_construction (ev : event) : bool :=
  match ev with
  | new_Embeddings (OllamaEmbeddings _)
  | new_ChatModel (ChatOllama _ _)
  | new_VectorStore (FaissStore _ _) => true
  | _ => false
  end.

Definition is_cloud_construction (ev : event) : bool :=
  match ev with
  | new_Embeddings (AzureOpenAIEmbeddings _)
  | new_ChatModel (AzureChatOpenAI _ _)
  | new_VectorStore (AzureCosmosDBNoSQLVectorStore _ _) => true
  | _ => false
  end.

Definition is_search (ev : event) : bool :=
  match ev with
  | retriever_invoke _ _ => true
  | _ => false
  end.

Definition is_generation (ev : event) : bool :=
  match ev with
  | ragChain_stream _ _ _ => true
  | _ => false
  end.

(** Every call that reaches a backend: the credential helpers, the
    constructors, the chain factory, retrieval and generation. *)
Definition is_backend_call (ev : event) : bool :=
  match ev with
  | request_json | context_log _ | context_error _ => false
  | _ => true
  end.

Definition is_fallback_notice (ev : event) : bool :=
  match ev with
  | context_log text => String.eqb text fallback_notice
  | _ => false
  end.

Definition is_error_log (ev : event) : bool :=
  match ev with
  | context_error _ => true
  | _ => false
  end.

Definition constructions (t : list event) : list event := filter is_construction t.
Definition searches (t : list event) : list event := filter is_search t.
Definition backend_calls (t : list event) : list event := filter is_backend_call t.

Definition cloud_constructions (credentials : Credentials) (tp : TokenProvider) : list event :=
  [ new_Embeddings (AzureOpenAIEmbeddings tp);
    new_ChatModel (AzureChatOpenAI 0.7%Q tp);
    new_VectorStore (AzureCosmosDBNoSQLVectorStore (AzureOpenAIEmbeddings tp) credentials) ].

Definition local_constructions : list event :=
  [ new_Embeddings (OllamaEmbeddings ollamaEmbeddingsModel);
    new_ChatModel (ChatOllama 0.7%Q ollamaChatModel);
    new_VectorStore (FaissStore faissStoreFolder (OllamaEmbeddings ollamaEmbeddingsModel)) ].

(** No credential helper and no cloud constructor throws. *)
Definition cloud_backend_up (w : Collaborators) (credentials : Credentials) (tp : TokenProvider) : Prop :=
  credentials_of w = Ok credentials /\
  token_provider_of w = Ok tp /\
  embeddings_fail w (AzureOpenAIEmbeddings tp) = None /\
  model_fail w (AzureChatOpenAI 0.7%Q tp) = None /\
  store_fail w (AzureCosmosDBNoSQLVectorStore (AzureOpenAIEmbeddings tp) credentials) = None.

(** No local constructor throws. *)
Definition local_backend_up (w : Collaborators) : Prop :=
  embeddings_fail w (OllamaEmbeddings ollamaEmbeddingsModel) = None /\
  model_fail w (ChatOllama 0.7%Q ollamaChatModel) = None /\
  store_fail w (FaissStore faissStoreFolder (OllamaEmbeddings ollamaEmbeddingsModel)) = None.

(** ** Requests *)

(** A request that passes validation, with the content of its last message:
    the body is an object whose [messages] is a non-empty array ending in an
    object whose [content] is truthy.  Nothing is asked of the earlier
    messages, nor of any [role]. *)
Definition valid_request (request : HttpRequest) (question : jsvalue) : Prop :=
  exists properties earlier m,
    json request = Ok (VObject properties) /\
    own_property "messages" properties = VArray (earlier ++ [VObject m])%list /\
    own_property "content" m = question /\
    truthy question = true.

(** The two ways the spec lists for [messages] to be missing. *)
Definition messages_absent_or_empty (messages : jsvalue) : Prop :=
  messages = VUndefined \/ messages = VArray [].

(** The last message has no content, or the empty string. *)
Definition last_content_absent_or_empty (messages : jsvalue) : Prop :=
  exists earlier m,
    messages = VArray (earlier ++ [m])%list /\
    (optional_content (at_value m) = VUndefined \/
     optional_content (at_value m) = VString "").

(** Rewriting the [role] of a message: [set_role r] gives it the role [r]
    (a later member overrides an earlier one), [delete_role] removes it. *)
Definition set_role (r : jsvalue) (message : jsvalue) : jsvalue :=
  match message with
  | VObject properties => VObject (properties ++ [("role", r)])%list
  | other => other
  end.

Definition delete_role (message : jsvalue) : jsvalue :=
  match message with
  | VObject properties =>
      VObject (filter (fun p => negb (String.eqb (fst p) "role")) properties)
  | other => other
  end.

(** A string between double quotes, written out character by character. *)
Definition quoted (s : string) : string := str dquote ++ s ++ str dquote.

(** The two lines of the spec's example, [{"delta":{"content":"Hel",...}}]. *)
Definition example_line (fragment : string) : string :=
  "{" ++ quoted "delta" ++ ":{" ++ quoted "content" ++ ":" ++ quoted fragment ++
  "," ++ quoted "role" ++ ":" ++ quoted "assistant" ++ "}}" ++ nl.

(** * Properties *)

(** ** The transcoder *)

Lemma occurrences_app (c : ascii) (a b : string) :
  occurrences c (a ++ b) = occurrences c a + occurrences c b.
Proof.
  induction a as [|x a IH]; simpl; [reflexivity|].
  rewrite IH. apply Nat.add_assoc.
Qed.

Lemma ends_with_app (c : ascii) (a : string) : ends_with c (a ++ str c) = true.
Proof.
  induction a as [|x a IH]; simpl.
  - apply Ascii.eqb_refl.
  - destruct (a ++ str c) eqn:E; [|exact IH].
    destruct a; discriminate E.
Qed.

(** No raw line feed survives quoting: it is written as the two characters
    of its escape. *)
Lemma quote_char_no_newline (c : ascii) : occurrences newline (quote_char c) = 0.
Proof.
  destruct c as [[] [] [] [] [] [] [] []]; reflexivity.
Qed.

Lemma quote_chars_no_newline (s : string) : occurrences newline (quote_chars s) = 0.
Proof.
  induction s as [|c s IH]; simpl; [reflexivity|].
  now rewrite occurrences_app, quote_char_no_newline, IH.
Qed.

Lemma JSON_quote_no_newline (s : string) : occurrences newline (JSON_quote s) = 0.
Proof.
  unfold JSON_quote. simpl.
  now rewrite occurrences_app, quote_chars_no_newline.
Qed.

Lemma JSON_stringify_no_newline (c : AIChatCompletionDelta) :
  occurrences newline (JSON_stringify c) = 0.
Proof.
  unfold JSON_stringify.
  repeat (rewrite occurrences_app || rewrite JSON_quote_no_newline).
  reflexivity.
Qed.

Lemma delta_line_one_newline (fragment : string) :
  occurrences newline (delta_line fragment) = 1 /\
  ends_with newline (delta_line fragment) = true.
Proof.
  unfold delta_line, nl. split.
  - now rewrite occurrences_app, JSON_stringify_no_newline.
  - apply ends_with_app.
Qed.

(** The transcoder on any iterable, also one that throws part way: the lines
    are those of the non-empty fragments yielded before the end, and the end
    (completion or the error) is passed on unchanged. *)
Lemma createJsonStream_yielded (chunks : AsyncIterable string) :
  yielded (createJsonStream chunks) = map delta_line (filter non_empty (yielded chunks)).
Proof.
  induction chunks as [|chunk rest IH|e]; simpl; try reflexivity.
  unfold non_empty at 1. destruct (is_empty chunk); simpl; now rewrite IH.
Qed.

Lemma createJsonStream_raised (chunks : AsyncIterable string) :
  raised (createJsonStream chunks) = raised chunks.
Proof.
  induction chunks as [|chunk rest IH|e]; simpl; try reflexivity.
  destruct (is_empty chunk); simpl; exact IH.
Qed.

Lemma yielded_from_list (A : Type) (l : list A) : yielded (from_list l) = l.
Proof.
  induction l as [|a l IH]; simpl; [reflexivity | now rewrite IH].
Qed.

(** Lines are produced fragment by fragment: the output for a longer input
    extends the output for a shorter one. *)
Lemma createJsonStream_app (xs ys : list string) :
  yielded (createJsonStream (from_list (xs ++ ys)%list)) =
  (yielded (createJsonStream (from_list xs)) ++ yielded (createJsonStream (from_list ys)))%list.
Proof.
  rewrite !createJsonStream_yielded, !yielded_from_list, filter_app, map_app.
  reflexivity.
Qed.

(** C3.  For every finite sequence of fragments the transcoder emits one line
    per non-empty fragment, in production order; each line is the JSON
    serialization of the delta object followed by a single newline (the only
    line feed of the line); empty fragments give no line.  On the fragments
    Hel, lo and the empty one, the output is the two lines of the spec. *)
Theorem createJsonStream_lines (fragments : list string) :
  createJsonStream (from_list fragments) =
    from_list (map delta_line (filter non_empty fragments)) /\
  length (yielded (createJsonStream (from_list fragments))) =
    length (filter non_empty fragments) /\
  (forall line, In line (yielded (createJsonStream (from_list fragments))) ->
     occurrences newline line = 1 /\ ends_with newline line = true) /\
  yielded (createJsonStream (from_list ["Hel"; "lo"; ""])) =
    [example_line "Hel"; example_line "lo"].
Proof.
  split; [|split; [|split]].
  - induction fragments as [|f rest IH]; simpl; [reflexivity|].
    unfold non_empty at 1. destruct (is_empty f); simpl; now rewrite IH.
  - now rewrite createJsonStream_yielded, yielded_from_list, length_map.
  - intros line Hin.
    rewrite createJsonStream_yielded in Hin.
    apply in_map_iff in Hin. destruct Hin as [f [<- _]].
    apply delta_line_one_newline.
  - reflexivity.
Qed.

(** ** Validation *)

Lemma valid_messages (earlier : list jsvalue) (m : list (string * jsvalue)) :
  truthy (own_property "content" m) = true ->
  invalid_messages (VArray (earlier ++ [VObject m])%list) = Ok false /\
  last_content (VArray (earlier ++ [VObject m])%list) = Ok (own_property "content" m).
Proof.
  intros Ht.
  unfold invalid_messages, last_content, at_minus_1, length_is_0.
  rewrite last_last. cbn [truthy negb optional_content asserted_content content_of].
  rewrite Ht.
  destruct earlier; simpl; split; reflexivity.
Qed.

(** Conversely, only such a value passes the test. *)
Lemma invalid_messages_false (messages : jsvalue) :
  invalid_messages messages = Ok false ->
  exists earlier m,
    messages = VArray (earlier ++ [VObject m])%list /\
    truthy (own_property "content" m) = true.
Proof.
  unfold invalid_messages.
  destruct messages as [| |b|n|s|elements|properties]; cbn; try discriminate.
  - destruct b; discriminate.
  - destruct n; discriminate.
  - destruct (is_empty s); cbn; discriminate.
  - induction elements as [|x xs _] using rev_ind; [discriminate|].
    intros H. exists xs.
    replace (match (xs ++ [x])%list with [] => true | _ :: _ => false end)
      with false in H by (destruct xs; reflexivity).
    rewrite last_last in H.
    destruct x as [| |b|n|s|l|m]; cbn in H; try discriminate.
    exists m. split; [reflexivity|].
    destruct (truthy (own_property "content" m)); [reflexivity | discriminate].
  - destruct (strict_equals_0 (own_property "length" properties)); discriminate.
Qed.

Lemma valid_request_passes (request : HttpRequest) (question : jsvalue) :
  valid_request request question <->
  exists body messages,
    json request = Ok body /\
    destructure_messages body = Ok messages /\
    invalid_messages messages = Ok false /\
    last_content messages = Ok question.
Proof.
  split.
  - intros (properties & earlier & m & Hj & Hm & Hc & Ht).
    exists (VObject properties), (VArray (earlier ++ [VObject m])%list).
    subst question.
    destruct (valid_messages earlier m Ht) as [Hi Hl].
    cbn. rewrite Hm. auto.
  - intros (body & messages & Hj & Hd & Hi & Hl).
    destruct (invalid_messages_false _ Hi) as (earlier & m & -> & Ht).
    destruct (valid_messages earlier m Ht) as [_ Hl'].
    rewrite Hl' in Hl. injection Hl as <-.
    destruct body; cbn in Hd; try discriminate.
    + injection Hd as Hd. now exists properties, earlier, m.
Qed.

(** ** Running the handler *)

Local Opaque systemPrompt chat_prompt document_template.

(** What the handler does with a value thrown in the [try] block. *)
Definition handled (t : list event) (x : thrown) : M HttpResponseInit :=
  match x with
  | with_message e =>
      ((t ++ [context_error (error_prefix ++ message e)])%list,
       Ok (serviceUnavailable unavailable_text))
  | message_throws y => (t, Throw y)
  end.

(** Case analysis on every collaborator outcome still under a [match]. *)
Ltac outcomes :=
  repeat first
    [ progress unfold handled
    | match goal with
      | |- context [match ?x with _ => _ end] =>
          lazymatch x with
          | context [match _ with _ => _ end] => fail
          | _ => destruct x eqn:?; cbn
          end
      end ].

(** Membership in an explicit list of events. *)
Ltac in_cases :=
  repeat match goal with
         | H : _ \/ _ |- _ => destruct H
         | H : False |- _ => destruct H
         | H : _ = _ |- _ => solve [inversion H; subst; reflexivity]
         | H : _ = _ |- _ => discriminate H
         end.

Lemma postChat_thrown (env : ProcessEnv) (w : Collaborators) (request : HttpRequest)
      (t : list event) (x : thrown) :
  postChat_try env w request = (t, Throw x) ->
  postChat env w request = handled t x.
Proof.
  intros H. unfold postChat, try_catch. rewrite H.
  destruct x; cbn; [reflexivity | now rewrite app_nil_r].
Qed.

Lemma postChat_caught (env : ProcessEnv) (w : Collaborators) (request : HttpRequest)
      (t : list event) (e : Error) :
  postChat_try env w request = (t, Throw (with_message e)) ->
  postChat env w request =
    ((t ++ [context_error (error_prefix ++ message e)])%list,
     Ok (serviceUnavailable unavailable_text)).
Proof.
  intros H. now rewrite (postChat_thrown env w request H).
Qed.

(** The handler throws exactly when the [catch] block does: on a caught value
    whose message cannot be read. *)
Lemma postChat_throws (env : ProcessEnv) (w : Collaborators) (request : HttpRequest)
      (y : thrown) :
  snd (postChat env w request) = Throw y <->
  snd (postChat_try env w request) = Throw (message_throws y).
Proof.
  unfold postChat, try_catch.
  destruct (postChat_try env w request) as [t [response|[e|x]]]; cbn;
    split; intros H; try discriminate H; now injection H as ->.
Qed.

Lemma postChat_returned (env : ProcessEnv) (w : Collaborators) (request : HttpRequest)
      (t : list event) (response : HttpResponseInit) :
  postChat_try env w request = (t, Ok response) ->
  postChat env w request = (t, Ok response).
Proof.
  intros H. unfold postChat, try_catch. rewrite H. reflexivity.
Qed.

(** A valid request reaches [generate_answer], after the one call that reads
    the body. *)
Lemma postChat_try_valid (env : ProcessEnv) (w : Collaborators) (request : HttpRequest)
      (question : jsvalue) :
  valid_request request question ->
  exists messages,
    last_content messages = Ok question /\
    postChat_try env w request =
      (request_json :: fst (generate_answer env w messages),
       snd (generate_answer env w messages)).
Proof.
  intros H. apply valid_request_passes in H.
  destruct H as (body & messages & Hj & Hd & Hi & Hl).
  exists messages. split; [exact Hl|].
  unfold postChat_try. rewrite Hj. cbn. rewrite Hd. cbn. rewrite Hi. cbn.
  destruct (generate_answer env w messages) as [t r]. reflexivity.
Qed.

(** Of the messages, [generate_answer] reads only the content of the last
    one. *)
Lemma generate_answer_question (env : ProcessEnv) (w : Collaborators)
      (messages messages' : jsvalue) (question : jsvalue) :
  last_content messages = Ok question ->
  last_content messages' = Ok question ->
  generate_answer env w messages = generate_answer env w messages'.
Proof.
  intros H H'. unfold generate_answer. rewrite H, H'. reflexivity.
Qed.

(** The run of [generate_answer], outcome by outcome. *)
Lemma generate_answer_run (env : ProcessEnv) (w : Collaborators) (messages : jsvalue)
      (question : jsvalue) (tb : list event) (rb : outcome thrown Backend) :
  last_content messages = Ok question ->
  select_backend env w = (tb, rb) ->
  generate_answer env w messages =
    match rb with
    | Throw e => (tb, Throw e)
    | Ok (_, model, store) =>
        let c := {| llm := model; prompt := chat_prompt; documentPrompt := document_template |} in
        let r := {| vectorStore := store; k := 3 |} in
        match chain_fail w c with
        | Some e => ((tb ++ [createStuffDocumentsChain c])%list, Throw e)
        | None =>
            match similarity_search w store question 3 with
            | Throw e =>
                ((tb ++ [createStuffDocumentsChain c; retriever_invoke r question])%list,
                 Throw e)
            | Ok docs =>
                match generate w c question docs with
                | Throw e =>
                    ((tb ++ [createStuffDocumentsChain c; retriever_invoke r question;
                             ragChain_stream c question docs])%list, Throw e)
                | Ok stream =>
                    ((tb ++ [createStuffDocumentsChain c; retriever_invoke r question;
                             ragChain_stream c question docs])%list,
                     Ok (data (createJsonStream stream) stream_headers))
                end
            end
        end
    end.
Proof.
  intros Hl Hb. unfold generate_answer. rewrite Hb, Hl.
  destruct rb as [[[embeddings model] store]|e]; cbn; [|reflexivity].
  outcomes; reflexivity.
Qed.

(** The run of the whole handler on a valid request. *)
Lemma postChat_valid_run (env : ProcessEnv) (w : Collaborators) (request : HttpRequest)
      (question : jsvalue) (tb : list event) (rb : outcome thrown Backend) :
  valid_request request question ->
  select_backend env w = (tb, rb) ->
  postChat env w request =
    let failed (t : list event) (e : thrown) := handled (request_json :: t) e in
    match rb with
    | Throw e => failed tb e
    | Ok (_, model, store) =>
        let c := {| llm := model; prompt := chat_prompt; documentPrompt := document_template |} in
        let r := {| vectorStore := store; k := 3 |} in
        match chain_fail w c with
        | Some e => failed (tb ++ [createStuffDocumentsChain c])%list e
        | None =>
            match similarity_search w store question 3 with
            | Throw e =>
                failed (tb ++ [createStuffDocumentsChain c; retriever_invoke r question])%list e
            | Ok docs =>
                match generate w c question docs with
                | Throw e =>
                    failed (tb ++ [createStuffDocumentsChain c; retriever_invoke r question;
                                   ragChain_stream c question docs])%list e
                | Ok stream =>
                    (request_json ::
                       (tb ++ [createStuffDocumentsChain c; retriever_invoke r question;
                               ragChain_stream c question docs])%list,
                     Ok (data (createJsonStream stream) stream_headers))
                end
            end
        end
    end.
Proof.
  intros Hv Hb.
  destruct (postChat_try_valid env w Hv) as (messages & Hl & Htry).
  rewrite (generate_answer_run env w messages Hl Hb) in Htry.
  destruct rb as [[[embeddings model] store]|e]; cbn in *.
  - outcomes;
      first [ apply postChat_thrown in Htry | apply postChat_returned in Htry ];
      exact Htry.
  - apply postChat_thrown in Htry. exact Htry.
Qed.

(** *** Backend selection *)

Lemma select_backend_cloud_up (env : ProcessEnv) (w : Collaborators)
      (credentials : Credentials) (tp : TokenProvider) :
  endpoint_set env = true ->
  cloud_backend_up w credentials tp ->
  select_backend env w =
    ((getCredentials :: getAzureOpenAiTokenProvider :: cloud_constructions credentials tp)%list,
     Ok (AzureOpenAIEmbeddings tp, AzureChatOpenAI 0.7%Q tp,
         AzureCosmosDBNoSQLVectorStore (AzureOpenAIEmbeddings tp) credentials)).
Proof.
  intros He (Hc & Ht & H1 & H2 & H3).
  unfold select_backend, azure_backend, temperature_literal. rewrite He, Hc. cbn.
  rewrite Ht. cbn. rewrite H1. cbn. rewrite H2. cbn. rewrite H3. reflexivity.
Qed.

Lemma select_backend_local_up (env : ProcessEnv) (w : Collaborators) :
  endpoint_set env = false ->
  local_backend_up w ->
  select_backend env w =
    ((context_log fallback_notice :: local_constructions)%list,
     Ok (OllamaEmbeddings ollamaEmbeddingsModel, ChatOllama 0.7%Q ollamaChatModel,
         FaissStore faissStoreFolder (OllamaEmbeddings ollamaEmbeddingsModel))).
Proof.
  intros He (H1 & H2 & H3).
  unfold select_backend, local_backend, temperature_literal. rewrite He. cbn.
  rewrite H1. cbn. rewrite H2. cbn. rewrite H3. reflexivity.
Qed.

(** Whatever throws, the cloud branch touches nothing local and logs no
    fallback notice. *)
Lemma select_backend_cloud_trace (env : ProcessEnv) (w : Collaborators) :
  endpoint_set env = true ->
  filter is_local_construction (fst (select_backend env w)) = [] /\
  filter is_fallback_notice (fst (select_backend env w)) = [].
Proof.
  intros He. unfold select_backend, azure_backend. rewrite He.
  cbn [bind call lift construct ret emit]. outcomes; split; reflexivity.
Qed.

(** Whatever throws, the local branch touches nothing of the cloud, logs the
    fallback notice once and goes on to the local embedder. *)
Lemma select_backend_local_trace (env : ProcessEnv) (w : Collaborators) :
  endpoint_set env = false ->
  filter is_cloud_construction (fst (select_backend env w)) = [] /\
  filter is_fallback_notice (fst (select_backend env w)) = [context_log fallback_notice] /\
  exists rest,
    fst (select_backend env w) =
      context_log fallback_notice :: new_Embeddings (OllamaEmbeddings ollamaEmbeddingsModel) :: rest.
Proof.
  intros He. unfold select_backend, local_backend. rewrite He.
  cbn [bind call lift construct ret emit]. outcomes; repeat split; eauto.
Qed.

(** Backend selection neither searches nor generates, and its first call
    tells the branch. *)
Lemma select_backend_quiet (env : ProcessEnv) (w : Collaborators) :
  searches (fst (select_backend env w)) = [] /\
  filter is_generation (fst (select_backend env w)) = [] /\
  exists rest,
    fst (select_backend env w) =
      (if endpoint_set env then getCredentials else context_log fallback_notice) :: rest.
Proof.
  unfold select_backend, azure_backend, local_backend, searches.
  destruct (endpoint_set env);
    cbn [bind call lift construct ret emit]; outcomes; repeat split; eauto.
Qed.

(** ** Rejected requests *)

(** C1, as the code has it.  When the body cannot be parsed, [request.json()]
    throws inside the [try] block: the handler logs the parse error and
    answers ServiceUnavailable with the fixed text (not BadRequest); no backend
    constructor, retrieval or generation call is attempted. *)
Theorem unparseable_body_unavailable (env : ProcessEnv) (w : Collaborators) (e : Error) :
  postChat env w {| json := Throw e |} =
    ([request_json; context_error (error_prefix ++ message e)],
     Ok (serviceUnavailable unavailable_text)) /\
  backend_calls (fst (postChat env w {| json := Throw e |})) = [].
Proof.
  split; reflexivity.
Qed.

(** [messages] can be read from every parsed body but the literal [null]. *)
Lemma destructure_messages_readable (body : jsvalue) :
  body <> VNull -> body <> VUndefined ->
  exists messages, destructure_messages body = Ok messages.
Proof.
  intros Hn Hu. destruct body; cbn; eauto; contradiction.
Qed.

(** C2, as the code has it.  A parsed request from whose body [messages] can
    be read (any body but the literal [null], on which the destructuring
    throws), and whose [messages] is absent or the empty list, or whose last
    message has no content or the empty string as content, is answered with
    BadRequest, and the only call made is the one that reads the body: no
    backend constructor is invoked. *)
Theorem invalid_messages_rejected (env : ProcessEnv) (w : Collaborators)
        (request : HttpRequest) (body messages : jsvalue) :
  json request = Ok body ->
  destructure_messages body = Ok messages ->
  messages_absent_or_empty messages \/ last_content_absent_or_empty messages ->
  postChat env w request = ([request_json], Ok (badRequest invalid_text)) /\
  backend_calls (fst (postChat env w request)) = [] /\
  constructions (fst (postChat env w request)) = [].
Proof.
  intros Hj Hd Hm.
  assert (Hi : invalid_messages messages = Ok true).
  { destruct Hm as [[-> | ->] | (earlier & m & -> & Hc)]; try reflexivity.
    unfold invalid_messages, at_minus_1, length_is_0.
    rewrite last_last. cbn [truthy negb].
    replace (match (earlier ++ [m])%list with [] => true | _ :: _ => false end)
      with false by (destruct earlier; reflexivity).
    destruct Hc as [-> | ->]; reflexivity. }
  assert (Hp : postChat env w request = ([request_json], Ok (badRequest invalid_text))).
  { apply postChat_returned. unfold postChat_try.
    rewrite Hj. cbn. rewrite Hd. cbn. rewrite Hi. reflexivity. }
  rewrite Hp. repeat split; reflexivity.
Qed.

(** ** Failures *)

(** Backend selection logs no error. *)
Lemma select_backend_no_error_log (env : ProcessEnv) (w : Collaborators) :
  filter is_error_log (fst (select_backend env w)) = [].
Proof.
  unfold select_backend, azure_backend, local_backend.
  destruct (endpoint_set env); cbn [bind call lift construct ret emit];
    outcomes; reflexivity.
Qed.

(** C4, as the code has it.  On a valid request, a value thrown inside the
    [try] block -- by backend construction, chain creation, retrieval or the
    call that starts generation -- whose message can be read (an Error object
    in particular) is caught: the message is logged and the response is
    ServiceUnavailable with the fixed text, the same for every such value; in
    particular when the similarity search throws.  When reading the message of
    the thrown value throws in turn, as on [null] and [undefined], the [catch]
    block fails: nothing is logged and the handler throws what that reading
    threw; the handler throws in no other case.  An error raised while the
    returned stream is being consumed is outside the [try] block: the response
    is the success response, whose body ends with that error, and nothing is
    logged. *)
Theorem exceptions_in_try_unavailable (env : ProcessEnv) (w : Collaborators)
        (request : HttpRequest) (question : jsvalue) :
  valid_request request question ->
  (forall t (e : Error),
     postChat_try env w request = (t, Throw (with_message e)) ->
     postChat env w request =
       ((t ++ [context_error (error_prefix ++ message e)])%list,
        Ok (serviceUnavailable unavailable_text))) /\
  (forall tb embeddings model store (e : Error),
     select_backend env w = (tb, Ok (embeddings, model, store)) ->
     let c := {| llm := model; prompt := chat_prompt; documentPrompt := document_template |} in
     let r := {| vectorStore := store; k := 3 |} in
     chain_fail w c = None ->
     similarity_search w store question 3 = Throw (with_message e) ->
     postChat env w request =
       (request_json ::
          (tb ++ [createStuffDocumentsChain c; retriever_invoke r question;
                  context_error (error_prefix ++ message e)])%list,
        Ok (serviceUnavailable unavailable_text))) /\
  (forall t x,
     postChat_try env w request = (t, Throw (message_throws x)) ->
     postChat env w request = (t, Throw x) /\ filter is_error_log t = []) /\
  (forall y,
     snd (postChat env w request) = Throw y ->
     snd (postChat_try env w request) = Throw (message_throws y)) /\
  (forall tb embeddings model store docs stream,
     select_backend env w = (tb, Ok (embeddings, model, store)) ->
     let c := {| llm := model; prompt := chat_prompt; documentPrompt := document_template |} in
     chain_fail w c = None ->
     similarity_search w store question 3 = Ok docs ->
     generate w c question docs = Ok stream ->
     snd (postChat env w request) = Ok (data (createJsonStream stream) stream_headers) /\
     raised (createJsonStream stream) = raised stream /\
     filter is_error_log (fst (postChat env w request)) = []).
Proof.
  intros Hv. split; [|split; [|split; [|split]]].
  - intros t e. apply postChat_caught.
  - intros tb embeddings model store e Hb c r Hc Hs.
    rewrite (postChat_valid_run env w Hv Hb). cbn. fold c. rewrite Hc. fold r.
    rewrite Hs. cbn. rewrite <- app_assoc. reflexivity.
  - intros t x Htry.
    pose proof (postChat_thrown env w request Htry) as Hp. cbn [handled] in Hp.
    split; [exact Hp|].
    destruct (select_backend env w) as [tb rb] eqn:Hb.
    pose proof (select_backend_no_error_log env w) as Hq.
    rewrite Hb in Hq. cbn [fst] in Hq.
    rewrite (postChat_valid_run env w Hv Hb) in Hp.
    destruct rb as [[[embeddings model] store]|e]; cbn in Hp;
      revert Hp; outcomes;
      intros Hp; injection Hp as Ht Hr; try discriminate Hr;
      subst t; cbn; rewrite ?filter_app, Hq; reflexivity.
  - intros y. apply postChat_throws.
  - intros tb embeddings model store docs stream Hb c Hc Hs Hg.
    pose proof (select_backend_no_error_log env w) as Hq.
    rewrite Hb in Hq. cbn [fst] in Hq.
    rewrite (postChat_valid_run env w Hv Hb). cbn. fold c. rewrite Hc, Hs, Hg.
    cbn. split; [reflexivity|]. split; [apply createJsonStream_raised|].
    rewrite filter_app, Hq. reflexivity.
Qed.

(** ** The pipeline *)

(** What a valid request adds to the calls of backend selection: the chain
    factory, at most one search, at most one generation, at most one error
    log. *)
Lemma postChat_valid_trace (env : ProcessEnv) (w : Collaborators) (request : HttpRequest)
      (question : jsvalue) :
  valid_request request question ->
  exists suffix,
    fst (postChat env w request) = request_json :: (fst (select_backend env w) ++ suffix)%list /\
    constructions suffix = [] /\
    filter is_local_construction suffix = [] /\
    filter is_cloud_construction suffix = [] /\
    filter is_fallback_notice suffix = [] /\
    length (searches suffix) <= 1 /\
    (forall r query, In (retriever_invoke r query) suffix -> query = question /\ k r = 3) /\
    (forall c input docs, In (ragChain_stream c input docs) suffix ->
       input = question /\ prompt c = chat_prompt).
Proof.
  intros Hv.
  destruct (select_backend env w) as [tb rb] eqn:Hb.
  rewrite (postChat_valid_run env w Hv Hb). cbn [fst].
  destruct rb as [[[embeddings model] store]|e]; cbn.
  - outcomes;
      rewrite <- ?app_assoc; eexists; (split; [reflexivity|]);
      cbn; repeat split; auto; intros; in_cases.
  - outcomes;
      [ eexists; split; [reflexivity|]
      | exists []; split; [now rewrite app_nil_r|] ];
      cbn; repeat split; auto; intros; in_cases.
Qed.

Lemma not_in_filtered (f : event -> bool) (t : list event) (ev : event) :
  filter f t = [] -> f ev = true -> ~ In ev t.
Proof.
  intros Hf Hev Hin.
  assert (H : In ev (filter f t)) by (apply filter_In; auto).
  rewrite Hf in H. exact H.
Qed.

(** C6, as the code has it.  On a valid request: when the cloud endpoint is
    set to a non-empty value, the handler constructs no local variant and logs
    no fallback notice, and, if neither credential helper nor cloud
    constructor throws, it constructs exactly the cloud embedder, the cloud
    chat model (temperature 0.7) and the cloud vector store, once each, in
    that order.  When the endpoint is unset or empty, it logs the fallback
    notice once and goes on to the local embedder, constructs no cloud
    variant, and, if no local constructor throws, constructs exactly the local
    embedder, the local chat model (temperature 0.7) and the store loaded
    from the local folder, once each, in that order. *)
Theorem backend_selection (env : ProcessEnv) (w : Collaborators) (request : HttpRequest)
        (question : jsvalue) :
  valid_request request question ->
  (endpoint_set env = true ->
     filter is_local_construction (fst (postChat env w request)) = [] /\
     filter is_fallback_notice (fst (postChat env w request)) = [] /\
     forall credentials tp,
       cloud_backend_up w credentials tp ->
       constructions (fst (postChat env w request)) = cloud_constructions credentials tp) /\
  (endpoint_set env = false ->
     filter is_cloud_construction (fst (postChat env w request)) = [] /\
     filter is_fallback_notice (fst (postChat env w request)) = [context_log fallback_notice] /\
     (exists rest,
        fst (postChat env w request) =
          request_json :: context_log fallback_notice ::
            new_Embeddings (OllamaEmbeddings ollamaEmbeddingsModel) :: rest) /\
     (local_backend_up w ->
      constructions (fst (postChat env w request)) = local_constructions)).
Proof.
  intros Hv.
  destruct (postChat_valid_trace env w Hv)
    as (suffix & Ht & Hc & Hl & Hcl & Hn & _).
  rewrite Ht. unfold constructions in *. cbn [filter is_construction
    is_local_construction is_cloud_construction is_fallback_notice].
  rewrite !filter_app, Hc, Hl, Hcl, Hn, !app_nil_r.
  split; intros He.
  - destruct (select_backend_cloud_trace env w He) as [H1 H2].
    repeat split; auto.
    intros credentials tp Hup.
    rewrite (select_backend_cloud_up env He Hup). reflexivity.
  - destruct (select_backend_local_trace env w He) as (H1 & H2 & rest & H3).
    repeat split; auto.
    + exists (rest ++ suffix)%list. rewrite H3. reflexivity.
    + intros Hup. rewrite (select_backend_local_up env He Hup). reflexivity.
Qed.

(** C7, as the code has it.  On a valid request the handler issues at most
    one similarity search, always with the content of the last message as the
    query and 3 as the number of matches, however many messages there are.
    When backend selection and chain creation do not throw, it issues exactly
    one, and the documents the store returns are passed on, as returned, to
    the one generation call. *)
Theorem retrieval_top3 (env : ProcessEnv) (w : Collaborators) (request : HttpRequest)
        (question : jsvalue) :
  valid_request request question ->
  length (searches (fst (postChat env w request))) <= 1 /\
  (forall r query, In (retriever_invoke r query) (fst (postChat env w request)) ->
     query = question /\ k r = 3) /\
  (forall tb embeddings model store,
     select_backend env w = (tb, Ok (embeddings, model, store)) ->
     let c := {| llm := model; prompt := chat_prompt; documentPrompt := document_template |} in
     chain_fail w c = None ->
     searches (fst (postChat env w request)) =
       [retriever_invoke {| vectorStore := store; k := 3 |} question] /\
     forall docs,
       similarity_search w store question 3 = Ok docs ->
       filter is_generation (fst (postChat env w request)) = [ragChain_stream c question docs]).
Proof.
  intros Hv.
  destruct (select_backend_quiet env w) as (Hq & Hg & _).
  split; [|split].
  - destruct (postChat_valid_trace env w Hv) as (suffix & Ht & _ & _ & _ & _ & Hs & _).
    rewrite Ht. unfold searches in *. cbn [filter is_search].
    rewrite filter_app, Hq. exact Hs.
  - intros r query Hin.
    destruct (postChat_valid_trace env w Hv) as (suffix & Ht & _ & _ & _ & _ & _ & Hs & _).
    rewrite Ht in Hin. destruct Hin as [Hin|Hin]; [discriminate Hin|].
    apply in_app_or in Hin. destruct Hin as [Hin|Hin]; [|eauto].
    exfalso. revert Hin. now apply (not_in_filtered is_search).
  - intros tb embeddings model store Hb c Hc.
    rewrite Hb in Hq, Hg. cbn [fst] in Hq, Hg.
    rewrite (postChat_valid_run env w Hv Hb). cbn. fold c. rewrite Hc.
    unfold searches in *.
    split.
    + outcomes; rewrite ?filter_app, Hq; reflexivity.
    + intros docs Hs. rewrite Hs.
      outcomes; rewrite ?filter_app, Hg; reflexivity.
Qed.

(** C8.  When a request passes validation and the [try] block ends without
    an error, the response is the success response: its headers are
    Content-Type: application/x-ndjson and Transfer-Encoding: chunked, and its
    body is the transcoder applied to the stream the generation call
    returned. *)
Theorem success_response (env : ProcessEnv) (w : Collaborators) (request : HttpRequest)
        (question : jsvalue) (t : list event) (response : HttpResponseInit) :
  valid_request request question ->
  postChat_try env w request = (t, Ok response) ->
  postChat env w request = (t, Ok response) /\
  exists c docs stream,
    In (ragChain_stream c question docs) t /\
    generate w c question docs = Ok stream /\
    response =
      data (createJsonStream stream)
           [("Content-Type", "application/x-ndjson"); ("Transfer-Encoding", "chunked")].
Proof.
  intros Hv Htry.
  pose proof (postChat_returned env w request Htry) as Hp.
  split; [exact Hp|].
  destruct (select_backend env w) as [tb rb] eqn:Hb.
  destruct (postChat_try_valid env w Hv) as (messages & Hl & Hrun).
  rewrite Htry, (generate_answer_run env w messages Hl Hb) in Hrun.
  destruct rb as [[[embeddings model] store]|e]; cbn in Hrun.
  2: { injection Hrun as _ Hrun. discriminate Hrun. }
  revert Hrun. outcomes; intros Hrun; injection Hrun as Ht Hr; try discriminate Hr.
  subst t response.
  eexists _, _, _. split; [|split; [eassumption | reflexivity]].
  right. apply in_or_app. right. cbn. auto.
Qed.

(** C9.  Two valid requests whose last messages have the same content are
    handled identically: the same calls with the same arguments and the same
    response.  The search query and the generation input are that content,
    and the prompt handed to the chain is the system prompt followed by the
    input placeholder; no earlier message is an argument of any call. *)
Theorem earlier_messages_ignored (env : ProcessEnv) (w : Collaborators)
        (request request' : HttpRequest) (question : jsvalue) :
  valid_request request question ->
  valid_request request' question ->
  postChat env w request = postChat env w request' /\
  (forall r query, In (retriever_invoke r query) (fst (postChat env w request)) ->
     query = question) /\
  (forall c input docs, In (ragChain_stream c input docs) (fst (postChat env w request)) ->
     input = question /\
     prompt c = [("system", systemPrompt); ("human", "{input}")]).
Proof.
  intros Hv Hv'.
  destruct (select_backend env w) as [tb rb] eqn:Hb.
  split; [|split].
  - rewrite (postChat_valid_run env w Hv Hb), (postChat_valid_run env w Hv' Hb).
    reflexivity.
  - intros r query Hin.
    destruct (postChat_valid_trace env w Hv) as (suffix & Ht & _ & _ & _ & _ & _ & Hs & _).
    destruct (select_backend_quiet env w) as (Hq & _).
    rewrite Ht in Hin. destruct Hin as [Hin|Hin]; [discriminate Hin|].
    apply in_app_or in Hin. destruct Hin as [Hin|Hin]; [|now apply (Hs r)].
    exfalso. revert Hin. now apply (not_in_filtered is_search).
  - intros c input docs Hin.
    destruct (postChat_valid_trace env w Hv) as (suffix & Ht & _ & _ & _ & _ & _ & _ & Hs).
    destruct (select_backend_quiet env w) as (_ & Hg & _).
    rewrite Ht in Hin. destruct Hin as [Hin|Hin]; [discriminate Hin|].
    apply in_app_or in Hin. destruct Hin as [Hin|Hin]; [|now apply Hs in Hin].
    exfalso. revert Hin. now apply (not_in_filtered is_generation).
Qed.

(** *** Roles *)

Lemma own_property_set_role (r : jsvalue) (properties : list (string * jsvalue)) :
  own_property "content" (properties ++ [("role", r)])%list = own_property "content" properties.
Proof.
  unfold own_property. rewrite rev_unit. reflexivity.
Qed.

Lemma find_filter (A : Type) (f g : A -> bool) (l : list A) :
  (forall x, f x = true -> g x = true) ->
  find f (filter g l) = find f l.
Proof.
  intros Hfg. induction l as [|x l IH]; cbn; [reflexivity|].
  destruct (g x) eqn:Hg; cbn.
  - now rewrite IH.
  - destruct (f x) eqn:Hf; [|exact IH].
    apply Hfg in Hf. congruence.
Qed.

Lemma filter_rev_commute (A : Type) (g : A -> bool) (l : list A) :
  rev (filter g l) = filter g (rev l).
Proof.
  induction l as [|x l IH]; cbn; [reflexivity|].
  rewrite filter_app, <- IH. cbn. destruct (g x); cbn; [reflexivity|].
  now rewrite app_nil_r.
Qed.

Lemma own_property_delete_role (properties : list (string * jsvalue)) :
  own_property "content"
    (filter (fun p => negb (String.eqb (fst p) "role")) properties) =
  own_property "content" properties.
Proof.
  unfold own_property. rewrite filter_rev_commute, find_filter; [reflexivity|].
  intros [name v]. cbn. intros H. apply String.eqb_eq in H. subst name. reflexivity.
Qed.

Lemma last_map_fixed (A : Type) (f : A -> A) (d : A) (l : list A) :
  f d = d -> last (map f l) d = f (last l d).
Proof.
  intros Hd. induction l as [|x l IH]; cbn; [now rewrite Hd|].
  destruct l; [reflexivity | exact IH].
Qed.

(** Validation gives the same verdict whatever is done to the roles, as long
    as a message is rewritten into a message with the same [content]. *)
Lemma invalid_messages_map (f : jsvalue -> jsvalue) (messages : list jsvalue) :
  f VUndefined = VUndefined ->
  (forall m, optional_content (at_value (f m)) = optional_content (at_value m)) ->
  invalid_messages (VArray (map f messages)) = invalid_messages (VArray messages).
Proof.
  intros Hd Hf. unfold invalid_messages, length_is_0, at_minus_1. cbn [truthy negb].
  destruct messages as [|m rest]; [reflexivity|].
  cbn [map]. rewrite <- (map_cons f m rest), last_map_fixed, Hf by exact Hd.
  reflexivity.
Qed.

(** C10.  A request whose [messages] is a non-empty list ending in a message
    with a non-empty string as content passes validation and goes on to
    backend selection, whatever the roles are: the verdict of validation is
    unchanged when every message is given an arbitrary role, or has its role
    removed. *)
Theorem roles_not_inspected (env : ProcessEnv) (w : Collaborators) (request : HttpRequest)
        (properties : list (string * jsvalue)) (earlier : list jsvalue)
        (m : list (string * jsvalue)) (s : string) :
  json request = Ok (VObject properties) ->
  own_property "messages" properties = VArray (earlier ++ [VObject m])%list ->
  own_property "content" m = VString s ->
  s <> "" ->
  invalid_messages (VArray (earlier ++ [VObject m])%list) = Ok false /\
  (exists rest,
     fst (postChat env w request) =
       request_json ::
       (if endpoint_set env then getCredentials else context_log fallback_notice) :: rest) /\
  (forall text, snd (postChat env w request) <> Ok (badRequest text)) /\
  (forall r messages,
     invalid_messages (VArray (map (set_role r) messages)) = invalid_messages (VArray messages)) /\
  (forall messages,
     invalid_messages (VArray (map delete_role messages)) = invalid_messages (VArray messages)).
Proof.
  intros Hj Hm Hc Hs.
  assert (Ht : truthy (own_property "content" m) = true).
  { rewrite Hc. destruct s; [contradiction | reflexivity]. }
  assert (Hv : valid_request request (VString s)).
  { exists properties, earlier, m. rewrite <- Hc. auto. }
  split; [apply (valid_messages earlier m Ht)|].
  split; [|split; [|split]].
  - destruct (postChat_valid_trace env w Hv) as (suffix & Hp & _).
    destruct (select_backend_quiet env w) as (_ & _ & rest & Hb).
    exists (rest ++ suffix)%list. rewrite Hp, Hb. reflexivity.
  - intros text.
    destruct (select_backend env w) as [tb rb] eqn:Hb.
    rewrite (postChat_valid_run env w Hv Hb).
    destruct rb as [[[embeddings model] store]|e]; cbn; outcomes; discriminate.
  - intros r messages. apply invalid_messages_map; [reflexivity|].
    intros [| | | | | |p]; try reflexivity.
    cbn. apply own_property_set_role.
  - intros messages. apply invalid_messages_map; [reflexivity|].
    intros [| | | | | |p]; try reflexivity.
    cbn. apply own_property_delete_role.
Qed.

(** * Further properties *)

(** ** Reading the lines back

    What a client of the stream does with a line: it reads the JSON string
    literal that follows the [content] key.  [read_string_body] reads the
    characters of a literal up to its closing double quote and returns the
    text together with what follows the literal.  Escapes of code points above
    U+007F, which [JSON.stringify] does not write for well-formed text, are
    not read. *)

Definition hex_value (c : ascii) : option nat :=
  let n := nat_of_ascii c in
  if Nat.leb 48 n && Nat.leb n 57 then Some (n - 48)        (* 0-9 *)
  else if Nat.leb 97 n && Nat.leb n 102 then Some (n - 87)  (* a-f *)
  else if Nat.leb 65 n && Nat.leb n 70 then Some (n - 55)   (* A-F *)
  else None.

Definition hex4 (a b c d : ascii) : option nat :=
  match hex_value a, hex_value b, hex_value c, hex_value d with
  | Some x, Some y, Some z, Some t => Some (((x * 16 + y) * 16 + z) * 16 + t)
  | _, _, _, _ => None
  end.

(** The character a two-character escape stands for. *)
Definition simple_escape (c : ascii) : option ascii :=
  match c with
  | "b" => Some "008" | "t" => Some "009" | "n" => Some "010"
  | "f" => Some "012" | "r" => Some "013"
  | "034" => Some "034" | "092" => Some "092" | "/" => Some "/"
  | _ => None
  end%char.

Definition prepend (c : ascii) (r : option (string * string)) : option (string * string) :=
  match r with
  | Some (text, rest) => Some (String c text, rest)
  | None => None
  end.

Fixpoint read_string_body (s : string) : option (string * string) :=
  match s with
  | EmptyString => None
  | String c rest =>
      if Ascii.eqb c dquote then Some (EmptyString, rest)
      else if Ascii.eqb c backslash then
        match rest with
        | EmptyString => None
        | String x rest1 =>
            match simple_escape x with
            | Some d => prepend d (read_string_body rest1)
            | None =>
                if Ascii.eqb x "u" then
                  match rest1 with
                  | String h1 (String h2 (String h3 (String h4 rest2))) =>
                      match hex4 h1 h2 h3 h4 with
                      | Some n =>
                          if Nat.ltb n 128
                          then prepend (ascii_of_nat n) (read_string_body rest2)
                          else None
                      | None => None
                      end
                  | _ => None
                  end
                else None
            end
        end
      else if Nat.ltb (nat_of_ascii c) 32 then None
      else prepend c (read_string_body rest)
  end.

Fixpoint strip_prefix (p s : string) : option string :=
  match p with
  | EmptyString => Some s
  | String a p' =>
      match s with
      | EmptyString => None
      | String b s' => if Ascii.eqb a b then strip_prefix p' s' else None
      end
  end.

Definition line_head : string := "{" ++ quoted "delta" ++ ":{" ++ quoted "content" ++ ":".
Definition line_tail : string :=
  "," ++ quoted "role" ++ ":" ++ quoted "assistant" ++ "}}" ++ nl.

(** The [content] of a line of the stream. *)
Definition line_content (line : string) : option string :=
  match strip_prefix line_head line with
  | Some (String q body) =>
      if Ascii.eqb q dquote then
        match read_string_body body with
        | Some (text, rest) => if String.eqb rest line_tail then Some text else None
        | None => None
        end
      else None
  | _ => None
  end.

Fixpoint contents (lines : list string) : option (list string) :=
  match lines with
  | [] => Some []
  | line :: rest =>
      match line_content line, contents rest with
      | Some c, Some cs => Some (c :: cs)
      | _, _ => None
      end
  end.

(** The whole text of a list of fragments. *)
Definition text_of (fragments : list string) : string := fold_right append "" fragments.

Lemma append_assoc (a b c : string) : (a ++ b) ++ c = a ++ (b ++ c).
Proof.
  induction a as [|x a IH]; cbn; [reflexivity | now rewrite IH].
Qed.

Lemma read_quote_char (c : ascii) (rest : string) :
  read_string_body (quote_char c ++ rest) = prepend c (read_string_body rest).
Proof.
  destruct c as [[] [] [] [] [] [] [] []]; reflexivity.
Qed.

Lemma read_quote_chars (s rest : string) :
  read_string_body (quote_chars s ++ String dquote rest) = Some (s, rest).
Proof.
  induction s as [|c s IH]; [reflexivity|].
  cbn [quote_chars]. rewrite append_assoc, read_quote_char, IH. reflexivity.
Qed.

Lemma strip_prefix_app (p s : string) : strip_prefix p (p ++ s) = Some s.
Proof.
  induction p as [|a p IH]; cbn; [reflexivity|].
  now rewrite Ascii.eqb_refl.
Qed.

(** A line is a fixed head, the quoted fragment, and a fixed tail. *)
Lemma delta_line_frame (fragment : string) :
  delta_line fragment =
  line_head ++ String dquote (quote_chars fragment ++ String dquote line_tail).
Proof.
  unfold delta_line, JSON_stringify, JSON_quote. cbn [content role delta].
  replace (quote_chars "delta") with "delta" by reflexivity.
  replace (quote_chars "content") with "content" by reflexivity.
  replace (quote_chars "role") with "role" by reflexivity.
  replace (quote_chars "assistant") with "assistant" by reflexivity.
  unfold line_head, line_tail, quoted, str, nl.
  repeat (rewrite append_assoc || cbn [append]).
  reflexivity.
Qed.

Lemma line_content_delta_line (fragment : string) :
  line_content (delta_line fragment) = Some fragment.
Proof.
  unfold line_content.
  rewrite delta_line_frame, strip_prefix_app, Ascii.eqb_refl, read_quote_chars,
    String.eqb_refl.
  reflexivity.
Qed.

Lemma contents_delta_lines (fragments : list string) :
  contents (map delta_line fragments) = Some fragments.
Proof.
  induction fragments as [|f rest IH]; cbn [contents map]; [reflexivity|].
  now rewrite line_content_delta_line, IH.
Qed.

Lemma text_of_non_empty (fragments : list string) :
  text_of (filter non_empty fragments) = text_of fragments.
Proof.
  induction fragments as [|f rest IH]; [reflexivity|].
  cbn [filter]. unfold non_empty at 1.
  destruct f as [|c f]; cbn [is_empty negb].
  - exact IH.
  - unfold text_of in *. cbn [fold_right]. now rewrite IH.
Qed.

(** A stream that yields the given fragments and then throws. *)
Definition failing_after {A : Type} (l : list A) (e : Error) : AsyncIterable A :=
  fold_right Yield (Raise e) l.

Fixpoint printable (s : string) : bool :=
  match s with
  | EmptyString => true
  | String c rest => negb (Nat.ltb (nat_of_ascii c) 32) && printable rest
  end.

Lemma printable_app (a b : string) : printable (a ++ b) = printable a && printable b.
Proof.
  induction a as [|c a IH]; cbn; [reflexivity|].
  now rewrite IH, andb_assoc.
Qed.

Lemma quote_char_printable (c : ascii) : printable (quote_char c) = true.
Proof.
  destruct c as [[] [] [] [] [] [] [] []]; reflexivity.
Qed.

Lemma quote_chars_printable (s : string) : printable (quote_chars s) = true.
Proof.
  induction s as [|c s IH]; cbn; [reflexivity|].
  now rewrite printable_app, quote_char_printable, IH.
Qed.

Lemma JSON_quote_printable (s : string) : printable (JSON_quote s) = true.
Proof.
  unfold JSON_quote. cbn. now rewrite printable_app, quote_chars_printable.
Qed.

(** ** The transcoder, further *)

(** X1.  Reading back the [content] of every line of the output gives the
    non-empty fragments of the input, in order, whatever characters they
    hold. *)
Theorem createJsonStream_round_trip (chunks : AsyncIterable string) :
  contents (yielded (createJsonStream chunks)) = Some (filter non_empty (yielded chunks)).
Proof.
  rewrite createJsonStream_yielded. apply contents_delta_lines.
Qed.

(** X2.  The contents of the lines, put end to end, are the whole text the model
    produced: dropping the empty fragments loses nothing. *)
Theorem streamed_text_complete (chunks : AsyncIterable string) :
  option_map text_of (contents (yielded (createJsonStream chunks))) =
  Some (text_of (yielded chunks)).
Proof.
  rewrite createJsonStream_yielded, contents_delta_lines. cbn.
  now rewrite text_of_non_empty.
Qed.

(** X3.  Two inputs with the same output have the same non-empty fragments: no two
    fragments are serialized to the same line. *)
Theorem createJsonStream_injective (a b : AsyncIterable string) :
  yielded (createJsonStream a) = yielded (createJsonStream b) ->
  filter non_empty (yielded a) = filter non_empty (yielded b).
Proof.
  intros H.
  assert (Hc : contents (yielded (createJsonStream a)) =
               contents (yielded (createJsonStream b))) by now rewrite H.
  rewrite !createJsonStream_yielded, !contents_delta_lines in Hc.
  now injection Hc.
Qed.

(** X4.  When the model's stream throws after some fragments, the lines of those
    fragments are produced first and the output then ends with the same
    error. *)
Theorem createJsonStream_failure (fragments : list string) (e : Error) :
  createJsonStream (failing_after fragments e) =
  failing_after (map delta_line (filter non_empty fragments)) e.
Proof.
  unfold failing_after.
  induction fragments as [|f rest IH]; cbn; [reflexivity|].
  unfold non_empty at 1. destruct (is_empty f); cbn; now rewrite IH.
Qed.

(** X5.  The output has no line at all exactly when every fragment is empty, in
    particular when the model yields nothing. *)
Theorem createJsonStream_silent (chunks : AsyncIterable string) :
  yielded (createJsonStream chunks) = [] <->
  forall fragment, In fragment (yielded chunks) -> fragment = "".
Proof.
  rewrite createJsonStream_yielded. split.
  - intros H fragment Hin.
    destruct fragment as [|c rest]; [reflexivity | exfalso].
    assert (Hf : In (String c rest) (filter non_empty (yielded chunks)))
      by (apply filter_In; split; [exact Hin | reflexivity]).
    apply (in_map delta_line) in Hf. rewrite H in Hf. exact Hf.
  - intros H. induction (yielded chunks) as [|f rest IH]; [reflexivity|].
    cbn. rewrite (H f) by (left; reflexivity). cbn.
    apply IH. intros fragment Hin. apply H. right. exact Hin.
Qed.

(** X6.  The serialized object holds no control character (code below 0x20),
    whatever the fragment holds: they are all written as escapes. *)
Theorem JSON_stringify_printable (fragment : string) :
  printable (JSON_stringify (responseChunk fragment)) = true.
Proof.
  unfold JSON_stringify.
  repeat (rewrite printable_app || rewrite JSON_quote_printable).
  reflexivity.
Qed.


(** ** Every request *)

(** The values of [messages] that the test at chat-post.ts:86 answers with
    BadRequest: a falsy value, the empty list, a list whose last element has
    no truthy content, a string, or an object whose [length] is 0. *)
Definition rejected_shape (messages : jsvalue) : Prop :=
  truthy messages = false \/
  messages = VArray [] \/
  (exists earlier m,
     messages = VArray (earlier ++ [m])%list /\
     truthy (optional_content (at_value m)) = false) \/
  (exists s, messages = VString s) \/
  (exists properties,
     messages = VObject properties /\
     strict_equals_0 (own_property "length" properties) = true).

(** The truthy values of [messages] that have no [at] method and are not
    stopped by the test on [length]. *)
Definition without_at (messages : jsvalue) : Prop :=
  messages = VBoolean true \/
  (exists n, messages = VNumber n /\ truthy (VNumber n) = true) \/
  (exists properties,
     messages = VObject properties /\
     strict_equals_0 (own_property "length" properties) = false).

(** The place of a call in the handler's text. *)
Definition rank (ev : event) : nat :=
  match ev with
  | request_json => 0
  | getCredentials | context_log _ => 1
  | getAzureOpenAiTokenProvider => 2
  | new_Embeddings _ => 3
  | new_ChatModel _ => 4
  | new_VectorStore _ => 5
  | createStuffDocumentsChain _ => 6
  | retriever_invoke _ _ => 7
  | ragChain_stream _ _ _ => 8
  | context_error _ => 9
  end.

Fixpoint increasing (l : list nat) : bool :=
  match l with
  | [] => true
  | x :: rest =>
      match rest with
      | [] => true
      | y :: _ => Nat.ltb x y && increasing rest
      end
  end.

(** The runs of backend selection: which calls are made, and how it ends. *)
Inductive backend_run (env : ProcessEnv) (w : Collaborators)
  : list event -> outcome thrown Backend -> Prop :=
| cloud_credentials_throw e :
    endpoint_set env = true ->
    credentials_of w = Throw e ->
    backend_run env w [getCredentials] (Throw e)
| cloud_token_throw credentials e :
    endpoint_set env = true ->
    credentials_of w = Ok credentials ->
    token_provider_of w = Throw e ->
    backend_run env w [getCredentials; getAzureOpenAiTokenProvider] (Throw e)
| cloud_embeddings_throw credentials tp e :
    endpoint_set env = true ->
    credentials_of w = Ok credentials ->
    token_provider_of w = Ok tp ->
    embeddings_fail w (AzureOpenAIEmbeddings tp) = Some e ->
    backend_run env w
      [getCredentials; getAzureOpenAiTokenProvider;
       new_Embeddings (AzureOpenAIEmbeddings tp)] (Throw e)
| cloud_model_throw credentials tp e :
    endpoint_set env = true ->
    credentials_of w = Ok credentials ->
    token_provider_of w = Ok tp ->
    embeddings_fail w (AzureOpenAIEmbeddings tp) = None ->
    model_fail w (AzureChatOpenAI 0.7%Q tp) = Some e ->
    backend_run env w
      [getCredentials; getAzureOpenAiTokenProvider;
       new_Embeddings (AzureOpenAIEmbeddings tp);
       new_ChatModel (AzureChatOpenAI 0.7%Q tp)] (Throw e)
| cloud_store_throw credentials tp e :
    endpoint_set env = true ->
    credentials_of w = Ok credentials ->
    token_provider_of w = Ok tp ->
    embeddings_fail w (AzureOpenAIEmbeddings tp) = None ->
    model_fail w (AzureChatOpenAI 0.7%Q tp) = None ->
    store_fail w (AzureCosmosDBNoSQLVectorStore (AzureOpenAIEmbeddings tp) credentials) = Some e ->
    backend_run env w
      (getCredentials :: getAzureOpenAiTokenProvider :: cloud_constructions credentials tp)
      (Throw e)
| cloud_ready credentials tp :
    endpoint_set env = true ->
    cloud_backend_up w credentials tp ->
    backend_run env w
      (getCredentials :: getAzureOpenAiTokenProvider :: cloud_constructions credentials tp)
      (Ok (AzureOpenAIEmbeddings tp, AzureChatOpenAI 0.7%Q tp,
           AzureCosmosDBNoSQLVectorStore (AzureOpenAIEmbeddings tp) credentials))
| local_embeddings_throw e :
    endpoint_set env = false ->
    embeddings_fail w (OllamaEmbeddings ollamaEmbeddingsModel) = Some e ->
    backend_run env w
      [context_log fallback_notice; new_Embeddings (OllamaEmbeddings ollamaEmbeddingsModel)]
      (Throw e)
| local_model_throw e :
    endpoint_set env = false ->
    embeddings_fail w (OllamaEmbeddings ollamaEmbeddingsModel) = None ->
    model_fail w (ChatOllama 0.7%Q ollamaChatModel) = Some e ->
    backend_run env w
      [context_log fallback_notice; new_Embeddings (OllamaEmbeddings ollamaEmbeddingsModel);
       new_ChatModel (ChatOllama 0.7%Q ollamaChatModel)]
      (Throw e)
| local_store_throw e :
    endpoint_set env = false ->
    embeddings_fail w (OllamaEmbeddings ollamaEmbeddingsModel) = None ->
    model_fail w (ChatOllama 0.7%Q ollamaChatModel) = None ->
    store_fail w (FaissStore faissStoreFolder (OllamaEmbeddings ollamaEmbeddingsModel)) = Some e ->
    backend_run env w (context_log fallback_notice :: local_constructions) (Throw e)
| local_ready :
    endpoint_set env = false ->
    local_backend_up w ->
    backend_run env w (context_log fallback_notice :: local_constructions)
      (Ok (OllamaEmbeddings ollamaEmbeddingsModel, ChatOllama 0.7%Q ollamaChatModel,
           FaissStore faissStoreFolder (OllamaEmbeddings ollamaEmbeddingsModel))).

Lemma select_backend_run (env : ProcessEnv) (w : Collaborators) :
  backend_run env w (fst (select_backend env w)) (snd (select_backend env w)).
Proof.
  unfold select_backend, azure_backend, local_backend, temperature_literal.
  destruct (endpoint_set env) eqn:He;
    cbn [bind call lift construct ret emit]; outcomes;
    solve [ econstructor; eauto
          | apply cloud_ready; [assumption | repeat split; assumption]
          | apply local_ready; [assumption | repeat split; assumption] ].
Qed.

Lemma postChat_rejected (env : ProcessEnv) (w : Collaborators) (request : HttpRequest)
      (body messages : jsvalue) :
  json request = Ok body ->
  destructure_messages body = Ok messages ->
  invalid_messages messages = Ok true ->
  postChat env w request = ([request_json], Ok (badRequest invalid_text)).
Proof.
  intros Hj Hd Hi. apply postChat_returned. unfold postChat_try.
  rewrite Hj. cbn. rewrite Hd. cbn. rewrite Hi. reflexivity.
Qed.

(** The three ways to fail before validation ends. *)
Definition validation_throws (request : HttpRequest) (e : Error) : Prop :=
  json request = Throw e \/
  (exists body, json request = Ok body /\ destructure_messages body = Throw e) \/
  (exists body messages,
     json request = Ok body /\ destructure_messages body = Ok messages /\
     invalid_messages messages = Throw e).

Lemma postChat_validation_throws (env : ProcessEnv) (w : Collaborators)
      (request : HttpRequest) (e : Error) :
  validation_throws request e ->
  postChat env w request =
    ([request_json; context_error (error_prefix ++ message e)],
     Ok (serviceUnavailable unavailable_text)).
Proof.
  intros [Hj | [(body & Hj & Hd) | (body & messages & Hj & Hd & Hi)]];
    apply (postChat_caught env w request (t := [request_json])); unfold postChat_try;
    rewrite Hj; cbn; try reflexivity; rewrite Hd; cbn; try reflexivity;
    rewrite Hi; reflexivity.
Qed.

(** The request is stopped by the test on [messages]. *)
Definition rejected_request (request : HttpRequest) : Prop :=
  exists body messages,
    json request = Ok body /\ destructure_messages body = Ok messages /\
    invalid_messages messages = Ok true.

Lemma postChat_rejected_request (env : ProcessEnv) (w : Collaborators)
      (request : HttpRequest) :
  rejected_request request ->
  postChat env w request = ([request_json], Ok (badRequest invalid_text)).
Proof.
  intros (body & messages & Hj & Hd & Hi). eapply postChat_rejected; eassumption.
Qed.

(** Every request is rejected, fails during validation, or is valid. *)
Lemma request_cases (request : HttpRequest) :
  rejected_request request \/
  (exists e, validation_throws request e) \/
  (exists question, valid_request request question).
Proof.
  destruct (json request) as [body|e] eqn:Hj.
  2: { right. left. exists e. left. exact Hj. }
  destruct (destructure_messages body) as [messages|e] eqn:Hd.
  2: { right. left. exists e. right. left. eauto. }
  destruct (invalid_messages messages) as [[|]|e] eqn:Hi.
  - left. exists body, messages. auto.
  - right. right.
    destruct (invalid_messages_false _ Hi) as (earlier & m & -> & Ht).
    exists (own_property "content" m). apply valid_request_passes.
    exists body, (VArray (earlier ++ [VObject m])%list).
    destruct (valid_messages earlier m Ht) as [_ Hl]. auto.
  - right. left. exists e. right. right. eauto 6.
Qed.

(** Membership of an event in an explicit trace. *)
Ltac find_in := solve [cbn; repeat first [left; reflexivity | right]].

(** Case analysis on the run of the handler on an arbitrary request. *)
Ltac every_run env w request :=
  let Hp := fresh "Hp" in
  let Hv := fresh "Hv" in
  let Hb := fresh "Hb" in
  let Hr := fresh "Hr" in
  let tb := fresh "tb" in
  let rb := fresh "rb" in
  destruct (request_cases request) as [Hp | [[? Hp] | [? Hv]]];
  [ apply (postChat_rejected_request env w) in Hp; rewrite Hp
  | apply (postChat_validation_throws env w) in Hp; rewrite Hp
  | destruct (select_backend env w) as [tb rb] eqn:Hb;
    rewrite (postChat_valid_run env w Hv Hb);
    pose proof (select_backend_run env w) as Hr;
    rewrite Hb in Hr; cbn [fst snd] in Hr;
    destruct Hr; cbn; outcomes ].


Lemma invalid_messages_true (messages : jsvalue) :
  invalid_messages messages = Ok true <-> rejected_shape messages.
Proof.
  unfold rejected_shape. split.
  - destruct messages as [| |b|n|s|elements|properties]; cbn; auto.
    + destruct b; [discriminate | auto].
    + destruct n; cbn; auto; discriminate.
    + intros _. right. right. right. left. eauto.
    + induction elements as [|x xs _] using rev_ind; [auto|].
      unfold invalid_messages, length_is_0, at_minus_1. cbn [truthy negb].
      replace (match (xs ++ [x])%list with [] => true | _ :: _ => false end)
        with false by (destruct xs; reflexivity).
      rewrite last_last. intros H. right. right. left. exists xs, x.
      split; [reflexivity|].
      destruct (truthy (optional_content (at_value x))) eqn:Ht; [|exact Ht].
      change (@Ok Error bool (negb (truthy (optional_content (at_value x)))) = Ok true) in H.
      rewrite Ht in H. discriminate H.
    + unfold invalid_messages, length_is_0, at_minus_1. cbn [truthy negb].
      destruct (strict_equals_0 (own_property "length" properties)) eqn:Hz;
        [|discriminate].
      intros _. right. right. right. right. eauto.
  - intros [H | [-> | [(earlier & m & -> & H) | [(s & ->) | (properties & -> & H)]]]].
    + unfold invalid_messages. now rewrite H.
    + reflexivity.
    + unfold invalid_messages, length_is_0, at_minus_1. cbn [truthy negb].
      replace (match (earlier ++ [m])%list with [] => true | _ :: _ => false end)
        with false by (destruct earlier; reflexivity).
      rewrite last_last, H. reflexivity.
    + destruct s; reflexivity.
    + unfold invalid_messages, length_is_0. cbn [truthy negb]. now rewrite H.
Qed.

Lemma invalid_messages_without_at (messages : jsvalue) :
  without_at messages -> invalid_messages messages = Throw not_a_function.
Proof.
  intros [-> | [(n & -> & H) | (properties & -> & H)]].
  - reflexivity.
  - unfold invalid_messages. rewrite H. reflexivity.
  - unfold invalid_messages, length_is_0. cbn [truthy negb]. rewrite H. reflexivity.
Qed.

(** ** The handler, further *)

(** X7.  BadRequest is the answer exactly for the rejected shapes of
    [messages]. *)
Theorem bad_request_iff (env : ProcessEnv) (w : Collaborators) (request : HttpRequest)
        (body messages : jsvalue) :
  json request = Ok body ->
  destructure_messages body = Ok messages ->
  (snd (postChat env w request) = Ok (badRequest invalid_text) <->
   rejected_shape messages).
Proof.
  intros Hj Hd. split.
  - intros Hp. apply invalid_messages_true.
    destruct (invalid_messages messages) as [[|]|e] eqn:Hi; [reflexivity | |].
    + exfalso.
      destruct (invalid_messages_false _ Hi) as (earlier & m & -> & Ht).
      assert (Hv : valid_request request (own_property "content" m)).
      { apply valid_request_passes.
        exists body, (VArray (earlier ++ [VObject m])%list).
        destruct (valid_messages earlier m Ht) as [_ Hl]. auto. }
      destruct (select_backend env w) as [tb rb] eqn:Hb.
      rewrite (postChat_valid_run env w Hv Hb) in Hp.
      destruct rb as [[[embeddings model] store]|e]; cbn in Hp;
        revert Hp; outcomes; discriminate.
    + exfalso.
      rewrite (postChat_validation_throws env w (request := request) (e := e)) in Hp
        by (right; right; eauto 6).
      discriminate Hp.
  - intros Hs. apply invalid_messages_true in Hs.
    now rewrite (postChat_rejected env w request Hj Hd Hs).
Qed.

(** X8.  A truthy [messages] that is neither a list nor a string (the value
    true, a number, an object) makes [messages.at] fail: the answer is
    ServiceUnavailable, the engine's error is logged, no backend is called. *)
Theorem messages_without_at_unavailable (env : ProcessEnv) (w : Collaborators)
        (request : HttpRequest) (body messages : jsvalue) :
  json request = Ok body ->
  destructure_messages body = Ok messages ->
  without_at messages ->
  postChat env w request =
    ([request_json; context_error (error_prefix ++ "messages.at is not a function")],
     Ok (serviceUnavailable unavailable_text)) /\
  backend_calls (fst (postChat env w request)) = [].
Proof.
  intros Hj Hd Hs. apply invalid_messages_without_at in Hs.
  rewrite (postChat_validation_throws env w (request := request) (e := not_a_function))
    by (right; right; eauto 6).
  split; reflexivity.
Qed.

(** X9.  Backend work is started exactly for valid requests: some backend call
    is made if and only if the request passes validation. *)
Theorem backend_called_iff_valid (env : ProcessEnv) (w : Collaborators)
        (request : HttpRequest) :
  backend_calls (fst (postChat env w request)) <> [] <->
  exists question, valid_request request question.
Proof.
  split.
  - intros H. destruct (request_cases request) as [Hp | [[e Hp] | Hv]];
      [| |exact Hv]; exfalso; apply H.
    + now rewrite (postChat_rejected_request env w Hp).
    + now rewrite (postChat_validation_throws env w Hp).
  - intros [question Hv].
    destruct (select_backend env w) as [tb rb] eqn:Hb.
    rewrite (postChat_valid_run env w Hv Hb).
    pose proof (select_backend_run env w) as Hr.
    rewrite Hb in Hr. cbn [fst snd] in Hr.
    destruct Hr; cbn; outcomes; discriminate.
Qed.


(** X10.  Whatever the request and whatever the collaborators answer, the
    handler's calls follow the order of its text and none is made twice:
    nothing is retried. *)
Theorem calls_in_order (env : ProcessEnv) (w : Collaborators) (request : HttpRequest) :
  increasing (map rank (fst (postChat env w request))) = true.
Proof.
  every_run env w request; reflexivity.
Qed.

(** X11.  An error is logged exactly when the answer is ServiceUnavailable; it
    is then logged once, as the last call, and the text of the answer is the
    fixed one.  The handler throws only when the [try] block threw a value
    whose message cannot be read (as [null] or [undefined]); it then throws
    what that reading threw, and nothing is logged. *)
Theorem error_logged_iff_unavailable (env : ProcessEnv) (w : Collaborators)
        (request : HttpRequest) :
  match snd (postChat env w request) with
  | Ok (serviceUnavailable text) =>
      text = unavailable_text /\
      (exists e, last (fst (postChat env w request)) request_json =
                 context_error (error_prefix ++ message e)) /\
      length (filter is_error_log (fst (postChat env w request))) = 1
  | Ok _ => filter is_error_log (fst (postChat env w request)) = []
  | Throw y =>
      filter is_error_log (fst (postChat env w request)) = [] /\
      snd (postChat_try env w request) = Throw (message_throws y)
  end.
Proof.
  pose proof (fun y => proj1 (postChat_throws env w request y)) as Hthrow.
  revert Hthrow.
  every_run env w request; cbn; intros Hthrow; eauto.
Qed.

(** X12.  BadRequest is only ever answered straight after reading the body:
    with the fixed text, and with no other call made, not even a log. *)
Theorem bad_request_only_at_start (env : ProcessEnv) (w : Collaborators)
        (request : HttpRequest) (text : string) :
  snd (postChat env w request) = Ok (badRequest text) ->
  text = invalid_text /\ fst (postChat env w request) = [request_json].
Proof.
  every_run env w request; cbn; intros Hbad; try discriminate Hbad.
  injection Hbad as <-. split; reflexivity.
Qed.

(** X13.  A stream is only ever answered for a valid request, with the two
    fixed headers, after the three constructions, exactly one search and
    exactly one generation call, and without any error logged. *)
Theorem stream_only_after_pipeline (env : ProcessEnv) (w : Collaborators)
        (request : HttpRequest) (body : AsyncIterable string)
        (headers : list (string * string)) :
  snd (postChat env w request) = Ok (data body headers) ->
  (exists question, valid_request request question) /\
  headers = stream_headers /\
  length (constructions (fst (postChat env w request))) = 3 /\
  length (searches (fst (postChat env w request))) = 1 /\
  length (filter is_generation (fst (postChat env w request))) = 1 /\
  filter is_error_log (fst (postChat env w request)) = [].
Proof.
  intros H.
  assert (Hv : exists question, valid_request request question).
  { destruct (request_cases request) as [Hp | [[e Hp] | Hv]]; [| |exact Hv].
    - rewrite (postChat_rejected_request env w Hp) in H. discriminate H.
    - rewrite (postChat_validation_throws env w Hp) in H. discriminate H. }
  split; [exact Hv|]. revert H.
  every_run env w request; cbn; intros Hdata; try discriminate Hdata.
  all: injection Hdata as _ <-; repeat split.
Qed.

(** X14.  Generation is only ever called on what the search returned: its
    documents are the ones the store answered, in that order, for the same
    query with 3 matches, on the store constructed in this request, and its
    model is the chat model constructed in this request. *)
Theorem generation_uses_retrieved (env : ProcessEnv) (w : Collaborators)
        (request : HttpRequest) (c : StuffDocumentsChain) (input : jsvalue)
        (docs : list Document) :
  In (ragChain_stream c input docs) (fst (postChat env w request)) ->
  exists store,
    similarity_search w store input 3 = Ok docs /\
    In (retriever_invoke {| vectorStore := store; k := 3 |} input)
       (fst (postChat env w request)) /\
    In (new_VectorStore store) (fst (postChat env w request)) /\
    In (new_ChatModel (llm c)) (fst (postChat env w request)) /\
    In (createStuffDocumentsChain c) (fst (postChat env w request)) /\
    documentPrompt c = "[{source}]: {page_content}" ++ nl.
Proof.
  every_run env w request; cbn; intros Hin;
    repeat match goal with
           | H : _ \/ _ |- _ => destruct H
           | H : False |- _ => destruct H
           | H : _ = ragChain_stream _ _ _ |- _ => try discriminate H; injection H as <- <- <-
           end;
    eexists; (split; [eassumption|]); cbn; repeat split; auto 12.
Qed.

(** X15.  The vector store is only ever built on the embedder constructed just
    before it in the same request: the cloud store with the credentials and
    the token provider the request obtained, which the cloud chat model
    shares; the local store from the configured folder. *)
Theorem store_built_on_constructed_embedder (env : ProcessEnv) (w : Collaborators)
        (request : HttpRequest) (s : VectorStore) :
  In (new_VectorStore s) (fst (postChat env w request)) ->
  match s with
  | AzureCosmosDBNoSQLVectorStore e credentials =>
      endpoint_set env = true /\
      credentials_of w = Ok credentials /\
      exists tp,
        token_provider_of w = Ok tp /\
        e = AzureOpenAIEmbeddings tp /\
        In (new_Embeddings e) (fst (postChat env w request)) /\
        In (new_ChatModel (AzureChatOpenAI 0.7%Q tp)) (fst (postChat env w request))
  | FaissStore directory e =>
      endpoint_set env = false /\
      directory = faissStoreFolder /\
      e = OllamaEmbeddings ollamaEmbeddingsModel /\
      In (new_Embeddings e) (fst (postChat env w request)) /\
      In (new_ChatModel (ChatOllama 0.7%Q ollamaChatModel)) (fst (postChat env w request))
  end.
Proof.
  every_run env w request; cbn; intros Hin;
    repeat match goal with
           | H : _ \/ _ |- _ => destruct H
           | H : False |- _ => destruct H
           | H : _ = new_VectorStore _ |- _ => try discriminate H; injection H as <-
           | H : cloud_backend_up _ _ _ |- _ => destruct H as (? & ? & ? & ? & ?)
           end;
    subst; cbn; repeat split; try assumption; try find_in;
    eexists; (split; [eassumption|]); (split; [reflexivity|]); split; find_in.
Qed.

(** X16.  Which backend is built does not depend on the request: two valid
    requests, whatever their questions, lead to the same constructions. *)
Theorem backend_independent_of_request (env : ProcessEnv) (w : Collaborators)
        (request request' : HttpRequest) (question question' : jsvalue) :
  valid_request request question ->
  valid_request request' question' ->
  constructions (fst (postChat env w request)) =
  constructions (fst (postChat env w request')).
Proof.
  intros Hv Hv'.
  destruct (postChat_valid_trace env w Hv) as (suffix & Ht & Hc & _).
  destruct (postChat_valid_trace env w Hv') as (suffix' & Ht' & Hc' & _).
  rewrite Ht, Ht'. unfold constructions in *. cbn [filter is_construction].
  now rewrite !filter_app, Hc, Hc'.
Qed.

(** X17.  The endpoint variable is only tested, never passed on: two
    environments in which it is set to non-empty values, or in which it is
    unset or empty, are handled identically. *)
Theorem endpoint_only_tested (env env' : ProcessEnv) (w : Collaborators)
        (request : HttpRequest) :
  endpoint_set env = endpoint_set env' ->
  postChat env w request = postChat env' w request.
Proof.
  intros H.
  unfold postChat, postChat_try, generate_answer, select_backend.
  rewrite H. reflexivity.
Qed.

(** X18.  When no backend is called, the answer owes nothing to the
    configuration or to the collaborators: a request stopped during
    validation is answered the same way whatever the environment and
    whatever the state of the backends. *)
Theorem no_backend_no_dependence (env env' : ProcessEnv) (w w' : Collaborators)
        (request : HttpRequest) :
  backend_calls (fst (postChat env w request)) = [] ->
  postChat env' w' request = postChat env w request.
Proof.
  intros H.
  destruct (request_cases request) as [Hp | [[e Hp] | [question Hv]]].
  - now rewrite !(postChat_rejected_request _ _ Hp).
  - now rewrite !(postChat_validation_throws _ _ Hp).
  - exfalso. revert H.
    destruct (select_backend env w) as [tb rb] eqn:Hb.
    rewrite (postChat_valid_run env w Hv Hb).
    pose proof (select_backend_run env w) as Hr.
    rewrite Hb in Hr. cbn [fst snd] in Hr.
    destruct Hr; cbn; outcomes; discriminate.
Qed.

(** A stream followed by another: the second starts when the first
    completes, and is never started when the first throws. *)
Fixpoint followed_by {A : Type} (a b : AsyncIterable A) : AsyncIterable A :=
  match a with
  | Done => b
  | Yield x rest => Yield x (followed_by rest b)
  | Raise e => Raise e
  end.

(** X19.  The transcoder works fragment by fragment, without looking ahead:
    the output for a stream followed by another is the output for the first
    followed by the output for the second. *)
Theorem createJsonStream_followed_by (a b : AsyncIterable string) :
  createJsonStream (followed_by a b) =
  followed_by (createJsonStream a) (createJsonStream b).
Proof.
  induction a as [|chunk rest IH|e]; cbn; try reflexivity.
  destruct (is_empty chunk); cbn; now rewrite IH.
Qed.

(** X20.  End to end.  When the request is valid and every call up to the
    start of generation succeeds, the contents of the lines of the response
    body are the non-empty fragments the model yields, and the body ends as
    the model's stream ends. *)
Theorem response_carries_model_output (env : ProcessEnv) (w : Collaborators)
        (request : HttpRequest) (question : jsvalue) (tb : list event)
        (embeddings : Embeddings) (model : BaseChatModel) (store : VectorStore)
        (docs : list Document) (stream : AsyncIterable string) :
  valid_request request question ->
  select_backend env w = (tb, Ok (embeddings, model, store)) ->
  let c := {| llm := model; prompt := chat_prompt; documentPrompt := document_template |} in
  chain_fail w c = None ->
  similarity_search w store question 3 = Ok docs ->
  generate w c question docs = Ok stream ->
  exists body,
    snd (postChat env w request) = Ok (data body stream_headers) /\
    contents (yielded body) = Some (filter non_empty (yielded stream)) /\
    option_map text_of (contents (yielded body)) = Some (text_of (yielded stream)) /\
    raised body = raised stream.
Proof.
  intros Hv Hb c Hc Hs Hg.
  exists (createJsonStream stream).
  rewrite (postChat_valid_run env w Hv Hb). cbn. fold c. rewrite Hc, Hs, Hg. cbn.
  split; [reflexivity|].
  rewrite createJsonStream_yielded, contents_delta_lines, createJsonStream_raised.
  cbn. rewrite text_of_non_empty. auto.
Qed.

End Handler.

Arguments OllamaEmbeddings {TokenProvider} model.
Arguments ChatOllama {TokenProvider} temperature model.
Arguments FaissStore {Credentials TokenProvider} directory embeddings.
Arguments request_json {Credentials TokenProvider}.
Arguments getCredentials {Credentials TokenProvider}.
Arguments getAzureOpenAiTokenProvider {Credentials TokenProvider}.
Arguments new_Embeddings {Credentials TokenProvider} e.
Arguments new_ChatModel {Credentials TokenProvider} m.
Arguments new_VectorStore {Credentials TokenProvider} s.
Arguments createStuffDocumentsChain {Credentials TokenProvider} c.
Arguments ragChain_stream {Credentials TokenProvider} c input context.
Arguments context_log {Credentials TokenProvider} text.
Arguments context_error {Credentials TokenProvider} text.
Arguments local_constructions {Credentials TokenProvider}
  ollamaChatModel ollamaEmbeddingsModel faissStoreFolder.

(** * Concrete runs *)

Module Sample.

(** Stand-ins for the constants of [../constants.js] and for the values of
    [../security.js]: credentials and token providers are named by strings. *)
Definition chatModel : string := "chat-model".
Definition embeddingsModel : string := "embeddings-model".
Definition storeFolder : string := ".faiss".

Definition boom : Error := {| message := "connect ECONNREFUSED" |}.

Definition retrieved : list Document :=
  [ {| source := "a.txt"; page_content := "X" |};
    {| source := "b.txt"; page_content := "Y" |} ].

(** Every collaborator answers; the chat model yields three fragments. *)
Definition up : Collaborators string string :=
  {| credentials_of := Ok "credential";
     token_provider_of := Ok "token-provider";
     embeddings_fail := fun _ => None;
     model_fail := fun _ => None;
     store_fail := fun _ => None;
     chain_fail := fun _ => None;
     similarity_search := fun _ _ _ => Ok retrieved;
     generate := fun _ _ _ => Ok (from_list ["Hel"; "lo"; ""]) |}.

(** The embedder's constructor throws. *)
Definition embedder_down : Collaborators string string :=
  {| credentials_of := Ok "credential";
     token_provider_of := Ok "token-provider";
     embeddings_fail := fun _ => Some (with_message boom);
     model_fail := fun _ => None;
     store_fail := fun _ => None;
     chain_fail := fun _ => None;
     similarity_search := fun _ _ _ => Ok retrieved;
     generate := fun _ _ _ => Ok (from_list ["Hel"; "lo"; ""]) |}.

(** The vector store cannot be opened. *)
Definition store_down : Collaborators string string :=
  {| credentials_of := Ok "credential";
     token_provider_of := Ok "token-provider";
     embeddings_fail := fun _ => None;
     model_fail := fun _ => None;
     store_fail := fun _ => Some (with_message boom);
     chain_fail := fun _ => None;
     similarity_search := fun _ _ _ => Ok retrieved;
     generate := fun _ _ _ => Ok (from_list ["Hel"; "lo"; ""]) |}.

(** The similarity search throws. *)
Definition search_down : Collaborators string string :=
  {| credentials_of := Ok "credential";
     token_provider_of := Ok "token-provider";
     embeddings_fail := fun _ => None;
     model_fail := fun _ => None;
     store_fail := fun _ => None;
     chain_fail := fun _ => None;
     similarity_search := fun _ _ _ => Throw (with_message boom);
     generate := fun _ _ _ => Ok (from_list ["Hel"; "lo"; ""]) |}.

(** Generation starts, yields one fragment, then throws. *)
Definition broken_stream : AsyncIterable string := Yield "Hel" (Raise boom).

Definition stream_breaks : Collaborators string string :=
  {| credentials_of := Ok "credential";
     token_provider_of := Ok "token-provider";
     embeddings_fail := fun _ => None;
     model_fail := fun _ => None;
     store_fail := fun _ => None;
     chain_fail := fun _ => None;
     similarity_search := fun _ _ _ => Ok retrieved;
     generate := fun _ _ _ => Ok broken_stream |}.

Definition cloud : ProcessEnv :=
  {| AZURE_OPENAI_API_ENDPOINT := Some "https://example.openai.azure.com" |}.
Definition unset : ProcessEnv := {| AZURE_OPENAI_API_ENDPOINT := None |}.
Definition blank : ProcessEnv := {| AZURE_OPENAI_API_ENDPOINT := Some "" |}.

Definition chat_message (r c : string) : jsvalue :=
  VObject [("role", VString r); ("content", VString c)].

Definition body (messages : list jsvalue) : jsvalue :=
  VObject [("messages", VArray messages)].

Definition question : string := "Where should I move?".

(** One message, as in the spec's end-to-end example. *)
Definition request : HttpRequest :=
  {| json := Ok (body [chat_message "user" question]) |}.

(** The same question at the end of a longer conversation, with a role
    outside the enumeration and a message without role. *)
Definition long_request : HttpRequest :=
  {| json := Ok (body [chat_message "user" "Hello";
                       chat_message "assistant" "Hi, how can I help?";
                       VObject [("content", VString "I am 30.")];
                       chat_message "narrator" question]) |}.

Definition no_messages : HttpRequest := {| json := Ok (VObject []) |}.
Definition empty_messages : HttpRequest := {| json := Ok (body []) |}.
Definition empty_content : HttpRequest :=
  {| json := Ok (body [chat_message "user" "Hi"; chat_message "user" ""]) |}.
Definition unparseable : HttpRequest :=
  {| json := Throw {| message := "Unexpected end of JSON input" |} |}.

(** The handler with the stand-in constants. *)
Definition handle (env : ProcessEnv) (w : Collaborators string string) (r : HttpRequest)
  : list (event string string) * outcome thrown HttpResponseInit :=
  postChat chatModel embeddingsModel storeFolder env w r.

Lemma request_valid : valid_request request (VString question).
Proof.
  exists [("messages", VArray [chat_message "user" question])], [],
         [("role", VString "user"); ("content", VString question)].
  repeat split.
Defined.

Lemma long_request_valid : valid_request long_request (VString question).
Proof.
  exists [("messages", VArray [chat_message "user" "Hello";
                               chat_message "assistant" "Hi, how can I help?";
                               VObject [("content", VString "I am 30.")];
                               chat_message "narrator" question])],
         [chat_message "user" "Hello"; chat_message "assistant" "Hi, how can I help?";
          VObject [("content", VString "I am 30.")]],
         [("role", VString "narrator"); ("content", VString question)].
  repeat split.
Defined.

End Sample.

(** ** The claims on concrete runs *)

(** An unparseable body is not answered with BadRequest. *)
Lemma unparseable_body_not_bad_request :
  ~ exists text,
      snd (Sample.handle Sample.unset Sample.up Sample.unparseable) = Ok (badRequest text).
Proof.
  intros [text H]. vm_compute in H. discriminate H.
Qed.

Lemma invalid_messages_rejected_witness :
  Sample.handle Sample.cloud Sample.up Sample.no_messages =
    ([request_json], Ok (badRequest invalid_text)) /\
  Sample.handle Sample.cloud Sample.up Sample.empty_messages =
    ([request_json], Ok (badRequest invalid_text)) /\
  Sample.handle Sample.cloud Sample.up Sample.empty_content =
    ([request_json], Ok (badRequest invalid_text)).
Proof.
  split; [|split].
  - apply (invalid_messages_rejected Sample.chatModel Sample.embeddingsModel
             Sample.storeFolder Sample.cloud Sample.up Sample.no_messages
             (body := VObject []) (messages := VUndefined) eq_refl eq_refl).
    left. left. reflexivity.
  - apply (invalid_messages_rejected Sample.chatModel Sample.embeddingsModel
             Sample.storeFolder Sample.cloud Sample.up Sample.empty_messages
             (body := Sample.body []) (messages := VArray []) eq_refl eq_refl).
    left. right. reflexivity.
  - apply (invalid_messages_rejected Sample.chatModel Sample.embeddingsModel
             Sample.storeFolder Sample.cloud Sample.up Sample.empty_content
             (body := Sample.body [Sample.chat_message "user" "Hi"; Sample.chat_message "user" ""])
             (messages := VArray [Sample.chat_message "user" "Hi"; Sample.chat_message "user" ""])
             eq_refl eq_refl).
    right. exists [Sample.chat_message "user" "Hi"], (Sample.chat_message "user" "").
    split; [reflexivity|]. right. reflexivity.
Defined.

(** The body is the JSON literal [null]: it is parsed and holds no
    [messages], and the answer is not BadRequest. *)
Lemma null_body_not_bad_request :
  ~ (json {| json := Ok VNull |} = Ok VNull ->
     exists text,
       snd (Sample.handle Sample.unset Sample.up {| json := Ok VNull |}) =
       Ok (badRequest text)).
Proof.
  intros H. destruct (H eq_refl) as [text Hr]. vm_compute in Hr. discriminate Hr.
Qed.

(** The body is the JSON literal [null]: destructuring it throws, and the
    answer is ServiceUnavailable. *)
Example null_body_unavailable :
  snd (Sample.handle Sample.unset Sample.up {| json := Ok VNull |}) =
  Ok (serviceUnavailable unavailable_text).
Proof. reflexivity. Qed.

(** [messages] is a number: it has no [at] method. *)
Example numeric_messages_unavailable :
  Sample.handle Sample.unset Sample.up
    {| json := Ok (VObject [("messages", VNumber (Finite false 5 0))]) |} =
  ([request_json; context_error (error_prefix ++ "messages.at is not a function")],
   Ok (serviceUnavailable unavailable_text)).
Proof. reflexivity. Qed.

(** Generation throws after its first fragment: the error is raised during
    generation, after validation, and the response is not
    ServiceUnavailable. *)
Lemma stream_error_not_caught :
  ~ (valid_request Sample.request (VString Sample.question) ->
     generate Sample.stream_breaks
       {| llm := AzureChatOpenAI 0.7%Q "token-provider"; prompt := chat_prompt;
          documentPrompt := document_template |}
       (VString Sample.question) Sample.retrieved = Ok Sample.broken_stream ->
     raised Sample.broken_stream = Some Sample.boom ->
     snd (Sample.handle Sample.cloud Sample.stream_breaks Sample.request) =
       Ok (serviceUnavailable unavailable_text)).
Proof.
  intros H.
  specialize (H Sample.request_valid eq_refl eq_refl).
  vm_compute in H. discriminate H.
Qed.

Lemma exceptions_in_try_unavailable_witness :
  Sample.handle Sample.unset Sample.search_down Sample.request =
    (request_json ::
       ((context_log fallback_notice ::
           local_constructions Sample.chatModel Sample.embeddingsModel Sample.storeFolder) ++
        [createStuffDocumentsChain
           {| llm := ChatOllama 0.7%Q Sample.chatModel; prompt := chat_prompt;
              documentPrompt := document_template |};
         retriever_invoke
           {| vectorStore := FaissStore Sample.storeFolder
                               (OllamaEmbeddings Sample.embeddingsModel);
              k := 3 |}
           (VString Sample.question);
         context_error (error_prefix ++ message Sample.boom)])%list,
     Ok (serviceUnavailable unavailable_text)).
Proof.
  exact (proj1 (proj2
    (exceptions_in_try_unavailable Sample.chatModel Sample.embeddingsModel
       Sample.storeFolder Sample.unset Sample.search_down Sample.request_valid))
    _ _ _ _ Sample.boom eq_refl eq_refl eq_refl).
Defined.

(** The endpoint is set and the request is valid, but the embedder's
    constructor throws: the chat model and the vector store are never
    constructed. *)
Lemma cloud_backend_not_constructed :
  ~ (valid_request Sample.request (VString Sample.question) ->
     AZURE_OPENAI_API_ENDPOINT Sample.cloud = Some "https://example.openai.azure.com" ->
     exists credentials tp,
       constructions (fst (Sample.handle Sample.cloud Sample.embedder_down Sample.request)) =
       cloud_constructions credentials tp).
Proof.
  intros H.
  destruct (H Sample.request_valid eq_refl) as (credentials & tp & Hc).
  vm_compute in Hc. discriminate Hc.
Qed.

(** A variable set to the empty string selects the local branch. *)
Example blank_endpoint_is_local :
  constructions (fst (Sample.handle Sample.blank Sample.up Sample.request)) =
  local_constructions Sample.chatModel Sample.embeddingsModel Sample.storeFolder.
Proof. reflexivity. Qed.

Lemma backend_selection_witness :
  constructions (fst (Sample.handle Sample.cloud Sample.up Sample.request)) =
    [ new_Embeddings (AzureOpenAIEmbeddings "token-provider");
      new_ChatModel (AzureChatOpenAI 0.7%Q "token-provider");
      new_VectorStore
        (AzureCosmosDBNoSQLVectorStore (AzureOpenAIEmbeddings "token-provider") "credential") ] /\
  constructions (fst (Sample.handle Sample.unset Sample.up Sample.request)) =
    [ new_Embeddings (OllamaEmbeddings Sample.embeddingsModel);
      new_ChatModel (ChatOllama 0.7%Q Sample.chatModel);
      new_VectorStore
        (FaissStore Sample.storeFolder (OllamaEmbeddings Sample.embeddingsModel)) ] /\
  filter (@is_fallback_notice string string)
    (fst (Sample.handle Sample.unset Sample.up Sample.request)) =
    [context_log fallback_notice].
Proof.
  split; [|split].
  - apply (proj1 (backend_selection Sample.chatModel Sample.embeddingsModel
                    Sample.storeFolder Sample.cloud Sample.up Sample.request_valid) eq_refl).
    repeat split.
  - apply (proj2 (backend_selection Sample.chatModel Sample.embeddingsModel
                    Sample.storeFolder Sample.unset Sample.up Sample.request_valid) eq_refl).
    repeat split.
  - apply (proj2 (backend_selection Sample.chatModel Sample.embeddingsModel
                    Sample.storeFolder Sample.unset Sample.up Sample.request_valid) eq_refl).
Defined.

(** The request is valid, but the local index cannot be loaded: no search
    is issued. *)
Lemma no_search_without_store :
  ~ (valid_request Sample.request (VString Sample.question) ->
     length (searches (fst (Sample.handle Sample.unset Sample.store_down Sample.request))) = 1).
Proof.
  intros H. specialize (H Sample.request_valid).
  vm_compute in H. discriminate H.
Qed.

Lemma retrieval_top3_witness :
  searches (fst (Sample.handle Sample.unset Sample.up Sample.long_request)) =
    [ retriever_invoke
        {| vectorStore := FaissStore Sample.storeFolder (OllamaEmbeddings Sample.embeddingsModel);
           k := 3 |}
        (VString Sample.question) ] /\
  filter (@is_generation string string)
    (fst (Sample.handle Sample.unset Sample.up Sample.long_request)) =
    [ ragChain_stream
        {| llm := ChatOllama 0.7%Q Sample.chatModel; prompt := chat_prompt;
           documentPrompt := document_template |}
        (VString Sample.question) Sample.retrieved ].
Proof.
  pose proof (proj2 (proj2
    (retrieval_top3 Sample.chatModel Sample.embeddingsModel Sample.storeFolder
       Sample.unset Sample.up Sample.long_request_valid)) _ _ _ _ eq_refl eq_refl) as [Hs Hg].
  split; [exact Hs | exact (Hg Sample.retrieved eq_refl)].
Defined.

Lemma success_response_witness :
  Sample.handle Sample.cloud Sample.up Sample.request =
    (fst (postChat_try Sample.chatModel Sample.embeddingsModel Sample.storeFolder
            Sample.cloud Sample.up Sample.request),
     Ok (data (from_list [example_line "Hel"; example_line "lo"])
              [("Content-Type", "application/x-ndjson"); ("Transfer-Encoding", "chunked")])).
Proof.
  exact (proj1 (success_response Sample.chatModel Sample.embeddingsModel Sample.storeFolder
                  Sample.cloud Sample.up Sample.request_valid eq_refl)).
Defined.

Lemma earlier_messages_ignored_witness :
  Sample.handle Sample.unset Sample.up Sample.request =
  Sample.handle Sample.unset Sample.up Sample.long_request.
Proof.
  exact (proj1 (earlier_messages_ignored Sample.chatModel Sample.embeddingsModel
                  Sample.storeFolder Sample.unset Sample.up
                  Sample.request_valid Sample.long_request_valid)).
Defined.

Lemma roles_not_inspected_witness :
  (exists rest,
     fst (Sample.handle Sample.unset Sample.up Sample.long_request) =
       request_json :: context_log fallback_notice :: rest) /\
  forall text,
    snd (Sample.handle Sample.unset Sample.up Sample.long_request) <> Ok (badRequest text).
Proof.
  pose proof (roles_not_inspected Sample.chatModel Sample.embeddingsModel Sample.storeFolder
                Sample.unset Sample.up Sample.long_request
                (properties := [("messages", VArray [Sample.chat_message "user" "Hello";
                                   Sample.chat_message "assistant" "Hi, how can I help?";
                                   VObject [("content", VString "I am 30.")];
                                   Sample.chat_message "narrator" Sample.question])])
                [Sample.chat_message "user" "Hello";
                 Sample.chat_message "assistant" "Hi, how can I help?";
                 VObject [("content", VString "I am 30.")]]
                [("role", VString "narrator"); ("content", VString Sample.question)]
                eq_refl eq_refl eq_refl) as H.
  assert (Hne : Sample.question <> "") by discriminate.
  destruct (H Hne) as (_ & Hb & Hr & _).
  split; [exact Hb | exact Hr].
Defined.

(** ** Further concrete runs *)

Module Edge.

(** [messages] is a string, the value true, and an object with a [length]. *)
Definition string_messages : HttpRequest :=
  {| json := Ok (VObject [("messages", VString "hello")]) |}.
Definition true_messages : HttpRequest :=
  {| json := Ok (VObject [("messages", VBoolean true)]) |}.

(** Another valid request, with another question. *)
Definition other_request : HttpRequest :=
  {| json := Ok (Sample.body [Sample.chat_message "user" "Which papers do I need?"]) |}.

Lemma other_request_valid : valid_request other_request (VString "Which papers do I need?").
Proof.
  exists [("messages", VArray [Sample.chat_message "user" "Which papers do I need?"])], [],
         [("role", VString "user"); ("content", VString "Which papers do I need?")].
  repeat split.
Defined.

Definition other_cloud : ProcessEnv :=
  {| AZURE_OPENAI_API_ENDPOINT := Some "https://other.openai.azure.com" |}.

Definition local_chain : StuffDocumentsChain string :=
  {| llm := ChatOllama 0.7%Q Sample.chatModel; prompt := chat_prompt;
     documentPrompt := document_template |}.

Definition local_store : VectorStore string string :=
  FaissStore Sample.storeFolder (OllamaEmbeddings Sample.embeddingsModel).

End Edge.

Ltac in_trace := solve [cbn; repeat first [left; reflexivity | right]].

Lemma createJsonStream_injective_witness :
  filter non_empty (yielded (from_list ["Hel"; ""; "lo"])) =
  filter non_empty (yielded (from_list ["Hel"; "lo"; ""])).
Proof.
  apply (createJsonStream_injective (from_list ["Hel"; ""; "lo"]) (from_list ["Hel"; "lo"; ""])).
  reflexivity.
Defined.

Lemma bad_request_iff_witness :
  snd (Sample.handle Sample.cloud Sample.up Edge.string_messages) =
  Ok (badRequest invalid_text).
Proof.
  apply (proj2 (bad_request_iff Sample.chatModel Sample.embeddingsModel Sample.storeFolder
                  Sample.cloud Sample.up Edge.string_messages
                  (body := VObject [("messages", VString "hello")])
                  (messages := VString "hello") eq_refl eq_refl)).
  right. right. right. left. exists "hello". reflexivity.
Defined.

Lemma messages_without_at_unavailable_witness :
  Sample.handle Sample.cloud Sample.up Edge.true_messages =
  ([request_json; context_error (error_prefix ++ "messages.at is not a function")],
   Ok (serviceUnavailable unavailable_text)).
Proof.
  apply (messages_without_at_unavailable Sample.chatModel Sample.embeddingsModel
           Sample.storeFolder Sample.cloud Sample.up Edge.true_messages
           (body := VObject [("messages", VBoolean true)])
           (messages := VBoolean true) eq_refl eq_refl).
  left. reflexivity.
Defined.

Lemma bad_request_only_at_start_witness :
  fst (Sample.handle Sample.cloud Sample.up Sample.empty_content) = [request_json].
Proof.
  apply (bad_request_only_at_start Sample.chatModel Sample.embeddingsModel
           Sample.storeFolder Sample.cloud Sample.up Sample.empty_content
           (text := invalid_text) eq_refl).
Defined.

Lemma stream_only_after_pipeline_witness :
  length (constructions (fst (Sample.handle Sample.cloud Sample.up Sample.request))) = 3 /\
  length (searches (fst (Sample.handle Sample.cloud Sample.up Sample.request))) = 1.
Proof.
  pose proof (stream_only_after_pipeline Sample.chatModel Sample.embeddingsModel
                Sample.storeFolder Sample.cloud Sample.up Sample.request
                (body := createJsonStream (from_list ["Hel"; "lo"; ""]))
                (headers := stream_headers) eq_refl) as (_ & _ & Hc & Hs & _).
  split; [exact Hc | exact Hs].
Defined.

Lemma generation_uses_retrieved_witness :
  exists store,
    similarity_search Sample.up store (VString Sample.question) 3 = Ok Sample.retrieved /\
    In (retriever_invoke {| vectorStore := store; k := 3 |} (VString Sample.question))
       (fst (Sample.handle Sample.unset Sample.up Sample.request)).
Proof.
  destruct (generation_uses_retrieved Sample.chatModel Sample.embeddingsModel
              Sample.storeFolder Sample.unset Sample.up Sample.request
              Edge.local_chain (VString Sample.question) Sample.retrieved)
    as (store & Hs & Hr & _).
  - in_trace.
  - exists store. split; [exact Hs | exact Hr].
Defined.

Lemma store_built_on_constructed_embedder_witness :
  In (new_Embeddings (OllamaEmbeddings Sample.embeddingsModel))
     (fst (Sample.handle Sample.unset Sample.up Sample.request)) /\
  In (new_ChatModel (ChatOllama 0.7%Q Sample.chatModel))
     (fst (Sample.handle Sample.unset Sample.up Sample.request)).
Proof.
  pose proof (store_built_on_constructed_embedder Sample.chatModel Sample.embeddingsModel
                Sample.storeFolder Sample.unset Sample.up Sample.request Edge.local_store)
    as H.
  assert (Hin : In (new_VectorStore Edge.local_store)
                   (fst (Sample.handle Sample.unset Sample.up Sample.request)))
    by in_trace.
  destruct (H Hin) as (_ & _ & _ & He & Hm).
  split; [exact He | exact Hm].
Defined.

Lemma backend_independent_of_request_witness :
  constructions (fst (Sample.handle Sample.cloud Sample.up Sample.request)) =
  constructions (fst (Sample.handle Sample.cloud Sample.up Edge.other_request)).
Proof.
  exact (backend_independent_of_request Sample.chatModel Sample.embeddingsModel
           Sample.storeFolder Sample.cloud Sample.up
           Sample.request_valid Edge.other_request_valid).
Defined.

Lemma endpoint_only_tested_witness :
  Sample.handle Sample.blank Sample.up Sample.request =
    Sample.handle Sample.unset Sample.up Sample.request /\
  Sample.handle Sample.cloud Sample.up Sample.request =
    Sample.handle Edge.other_cloud Sample.up Sample.request.
Proof.
  split.
  - exact (endpoint_only_tested Sample.chatModel Sample.embeddingsModel Sample.storeFolder
             Sample.blank Sample.unset Sample.up Sample.request eq_refl).
  - exact (endpoint_only_tested Sample.chatModel Sample.embeddingsModel Sample.storeFolder
             Sample.cloud Edge.other_cloud Sample.up Sample.request eq_refl).
Defined.

Lemma no_backend_no_dependence_witness :
  Sample.handle Sample.unset Sample.store_down Sample.empty_messages =
  Sample.handle Sample.cloud Sample.up Sample.empty_messages.
Proof.
  exact (no_backend_no_dependence Sample.chatModel Sample.embeddingsModel Sample.storeFolder
           Sample.cloud Sample.unset Sample.up Sample.store_down Sample.empty_messages
           eq_refl).
Defined.

Lemma response_carries_model_output_witness :
  exists body,
    snd (Sample.handle Sample.unset Sample.up Sample.request) = Ok (data body stream_headers) /\
    contents (yielded body) = Some ["Hel"; "lo"].
Proof.
  destruct (response_carries_model_output Sample.chatModel Sample.embeddingsModel
              Sample.storeFolder Sample.unset Sample.up
              (tb := context_log fallback_notice ::
                     local_constructions Sample.chatModel Sample.embeddingsModel
                       Sample.storeFolder)
              (embeddings := OllamaEmbeddings Sample.embeddingsModel)
              (model := ChatOllama 0.7%Q Sample.chatModel)
              (store := Edge.local_store)
              (docs := Sample.retrieved)
              (stream := from_list ["Hel"; "lo"; ""])
              Sample.request_valid eq_refl eq_refl eq_refl eq_refl)
    as (body & Hr & Hc & _).
  exists body. split; [exact Hr | exact Hc].
Defined.

(** ** A collaborator that throws [null] *)

Module Uncaught.

(** The similarity search throws the value [null]. *)
Definition search_throws_null : Collaborators string string :=
  {| credentials_of := Ok "credential";
     token_provider_of := Ok "token-provider";
     embeddings_fail := fun _ => None;
     model_fail := fun _ => None;
     store_fail := fun _ => None;
     chain_fail := fun _ => None;
     similarity_search := fun _ _ _ => Throw thrown_null;
     generate := fun _ _ _ => Ok (from_list ["Hel"; "lo"; ""]) |}.

End Uncaught.

(** Reading the message of the caught [null] throws: the handler throws that
    TypeError, gives no response and logs nothing. *)
Example thrown_null_escapes :
  Sample.handle Sample.unset Uncaught.search_throws_null Sample.request =
    (request_json ::
       ((context_log fallback_notice ::
           local_constructions Sample.chatModel Sample.embeddingsModel Sample.storeFolder) ++
        [createStuffDocumentsChain Edge.local_chain;
         retriever_invoke {| vectorStore := Edge.local_store; k := 3 |}
           (VString Sample.question)])%list,
     Throw (with_message (cannot_read "null" "message"))).
Proof. reflexivity. Qed.
